(** * Roam search plugin: index build and ranked query

    A shallow embedding of [src/plugins/search_plugin/search.py]: the rank
    function registered with SQLite, the validation of the search settings,
    the extraction of feature records for the full-text index, and the
    query issued by the search panel.

    The module is Python 3 code (it imports from [qgis.PyQt] and
    [qgis.core] of QGIS 3 and calls [print] as a function), so [/] is true
    division, which gives a float also for two ints, and a [str] is a
    sequence of Unicode code points. *)

From Stdlib Require Import ZArith Floats Strings.Byte Strings.Ascii.
From stdpp Require Import gmap strings list pretty.

Local Open Scope Z_scope.
Local Set Warnings "-register-all,-inexact-float,-clear-no-such-hyp".

(** ** Python values and exceptions *)

(** The exceptions the modelled code can meet. *)
Inductive pyexn : Type :=
  | StructError        (* struct.error *)
  | OverflowError
  | ZeroDivisionError
  | TypeError
  | AttributeError
  | KeyError
  | IndexError
  | OperationalError.  (* sqlite3.OperationalError *)

(** A computation either returns a value or raises. *)
Inductive result (A : Type) : Type :=
  | Ok (a : A)
  | Raise (e : pyexn).
Arguments Ok {A} a.
Arguments Raise {A} e.

#[global] Instance result_ret : MRet result := fun A a => Ok a.
#[global] Instance result_bind : MBind result := fun A B f m =>
  match m with
  | Ok a => f a
  | Raise e => Raise e
  end.

Definition is_ok {A} (r : result A) : bool :=
  match r with Ok _ => true | Raise _ => false end.

(** A Python number: an [int] of any size, or a binary64 [float]. *)
Inductive pynum : Type :=
  | PyInt (z : Z)
  | PyFloat (f : float).

(** Conversion of an int to a float rounds to the nearest double, ties to
    even, and raises [OverflowError] when the rounded value would not be
    finite: the largest double is [2^1024 - 2^971] and from
    [2^1024 - 2^970] on an integer rounds past it. *)
Definition float_overflow_bound : Z := 2 ^ 1024 - 2 ^ 970.

Definition float_of_int (z : Z) : result float :=
  if float_overflow_bound <=? Z.abs z then Raise OverflowError
  else Ok (SF2Prim (binary_normalize prec emax z 0 false)).

Definition float_is_zero (f : float) : bool := PrimFloat.eqb f 0%float.

(** [a * b] *)
Definition py_mul (a b : pynum) : result pynum :=
  match a, b with
  | PyInt x, PyInt y => Ok (PyInt (x * y))
  | PyInt x, PyFloat g => f ← float_of_int x; Ok (PyFloat (PrimFloat.mul f g))
  | PyFloat f, PyInt y => g ← float_of_int y; Ok (PyFloat (PrimFloat.mul f g))
  | PyFloat f, PyFloat g => Ok (PyFloat (PrimFloat.mul f g))
  end.

(** [a + b] *)
Definition py_add (a b : pynum) : result pynum :=
  match a, b with
  | PyInt x, PyInt y => Ok (PyInt (x + y))
  | PyInt x, PyFloat g => f ← float_of_int x; Ok (PyFloat (PrimFloat.add f g))
  | PyFloat f, PyInt y => g ← float_of_int y; Ok (PyFloat (PrimFloat.add f g))
  | PyFloat f, PyFloat g => Ok (PyFloat (PrimFloat.add f g))
  end.

(** An int as the numerator or denominator of an exact quotient. *)
Definition sf_of_int (z : Z) : spec_float :=
  match z with
  | Z0 => S754_zero false
  | Zpos p => S754_finite false p 0
  | Zneg p => S754_finite true p 0
  end.

(** [x / y] for two ints: the double nearest to the exact quotient, ties
    to even; [ZeroDivisionError] for a zero divisor and [OverflowError]
    when the quotient rounds past the largest double. *)
Definition int_true_divide (x y : Z) : result float :=
  if y =? 0 then Raise ZeroDivisionError
  else if float_overflow_bound * Z.abs y <=? Z.abs x then Raise OverflowError
  else Ok (SF2Prim (SFdiv prec emax (sf_of_int x) (sf_of_int y))).

(** [a / b], true division: the result is a float whatever the operands.
    With a float operand an int is converted first, and only then is the
    divisor compared with zero; a non-zero int never converts to [0.0], so
    for an int divisor the test is made on the int itself. *)
Definition py_div (a b : pynum) : result pynum :=
  match a, b with
  | PyInt x, PyInt y => f ← int_true_divide x y; Ok (PyFloat f)
  | PyInt x, PyFloat g =>
      f ← float_of_int x;
      if float_is_zero g then Raise ZeroDivisionError
      else Ok (PyFloat (PrimFloat.div f g))
  | PyFloat f, PyInt y =>
      g ← float_of_int y;
      if y =? 0 then Raise ZeroDivisionError
      else Ok (PyFloat (PrimFloat.div f g))
  | PyFloat f, PyFloat g =>
      if float_is_zero g then Raise ZeroDivisionError
      else Ok (PyFloat (PrimFloat.div f g))
  end.

(** ** The rank function *)

(** Machine byte order, which [struct] uses by default. *)
Inductive byteorder : Type := LittleEndian | BigEndian.

Definition byte_val (b : byte) : Z := Z.of_N (Byte.to_N b).

(** One native unsigned 32-bit integer out of four bytes. *)
Definition word_of_bytes (bo : byteorder) (b0 b1 b2 b3 : byte) : Z :=
  match bo with
  | LittleEndian =>
      byte_val b0 + 2 ^ 8 * byte_val b1 + 2 ^ 16 * byte_val b2 + 2 ^ 24 * byte_val b3
  | BigEndian =>
      byte_val b3 + 2 ^ 8 * byte_val b2 + 2 ^ 16 * byte_val b1 + 2 ^ 24 * byte_val b0
  end.

(** The native unsigned 32-bit integers a blob is made of; a blob that
    does not end on a whole integer is refused with [struct.error]. *)
Fixpoint struct_unpack_I (bo : byteorder) (blob : list byte) : result (list Z) :=
  match blob with
  | [] => Ok []
  | b0 :: b1 :: b2 :: b3 :: rest =>
      ws ← struct_unpack_I bo rest; Ok (word_of_bytes bo b0 b1 b2 b3 :: ws)
  | _ => Raise StructError
  end.

(** [zip(it, it, it)] over one shared iterator: consecutive triples; an
    incomplete last group is dropped. *)
Fixpoint zip_it_it_it (l : list Z) : list (Z * Z * Z) :=
  match l with
  | a :: b :: c :: rest => (a, b, c) :: zip_it_it_it rest
  | _ => []
  end.

(** [sum(x[0]*w/x[1] for x, w in ... if x[1])], the accumulator made
    explicit: [sum] starts from the int [0] and adds the items from left to
    right. *)
Fixpoint sum_ranked (acc : pynum) (xs : list ((Z * Z * Z) * pynum)) : result pynum :=
  match xs with
  | [] => Ok acc
  | ((x0, x1, _), w) :: rest =>
      if x1 =? 0 then sum_ranked acc rest
      else
        p ← py_mul (PyInt x0) w;
        t ← py_div p (PyInt x1);
        acc' ← py_add acc t;
        sum_ranked acc' rest
  end.

(** ["I" * count], the format of [count] unsigned ints, kept as their
    number: a string is repeated by an int only (a negative one gives the
    empty string), and any other factor is a [TypeError]. *)
Definition repeat_I (count : pynum) : result nat :=
  match count with
  | PyInt n => Ok (Z.to_nat n)
  | PyFloat _ => Raise TypeError
  end.

(** [struct.unpack(fmt, blob)] for the format of [n] unsigned ints: the
    blob must have exactly the [4 * n] bytes the format asks for. *)
Definition struct_unpack (bo : byteorder) (n : nat) (blob : list byte)
    : result (list Z) :=
  if decide (length blob = 4 * n)%nat then struct_unpack_I bo blob
  else Raise StructError.

(** The last two statements of [rank], on the unpacked matchinfo:
    [it = iter(matchinfo[2:])], then the sum that is returned. *)
Definition rank_sum (weights : list pynum) (stats : list Z) : result pynum :=
  let it := drop 2 stats in
  sum_ranked (PyInt 0) (zip (zip_it_it_it it) weights).

(** [make_rank_func(weights)(matchinfo)]: the repetition count of the
    format is [len(matchinfo)/4], a true division. *)
Definition make_rank_func (bo : byteorder) (weights : list pynum)
    (matchinfo : list byte) : result pynum :=
  count ← py_div (PyInt (Z.of_nat (length matchinfo))) (PyInt 4);
  n ← repeat_I count;
  stats ← struct_unpack bo n matchinfo;
  rank_sum weights stats.

(** The weights [SearchPlugin.db] registers: [(1., .1, 0, 0)]; the second
    is the double nearest to one tenth. *)
Definition default_weights : list pynum :=
  [PyFloat 1.0%float; PyFloat 0x1.999999999999ap-4%float; PyInt 0; PyInt 0].

Definition blob_5_10_2 : list byte :=
  [x01; x00; x00; x00;  x01; x00; x00; x00;
   x05; x00; x00; x00;  x0a; x00; x00; x00;  x02; x00; x00; x00].

(** *** The match statistics by position

    The layout of the unpacked matchinfo: two leading values, then one
    triple (hits in this row, hits in all rows, documents with a hit) per
    position. *)

Definition stat_at (stats : list Z) (k : nat) : Z := default 0 (stats !! k).

Definition hits_in_row (stats : list Z) (i : nat) : Z :=
  stat_at stats (2 + 3 * i)%nat.
Definition hits_total_docs (stats : list Z) (i : nat) : Z :=
  stat_at stats (3 + 3 * i)%nat.
Definition docs_containing_term (stats : list Z) (i : nat) : Z :=
  stat_at stats (4 + 3 * i)%nat.

Definition weight_at (weights : list pynum) (i : nat) : pynum :=
  default (PyInt 0) (weights !! i).

(** The positions that are scored: those with a complete triple and a
    weight. *)
Definition position_count (stats : list Z) (weights : list pynum) : nat :=
  (((length stats - 2) / 3) `min` length weights)%nat.

(** [hits_in_row * weight / denominator] at position [i]. *)
Definition position_score (denominator : list Z -> nat -> Z)
    (stats : list Z) (weights : list pynum) (i : nat) : result pynum :=
  p ← py_mul (PyInt (hits_in_row stats i)) (weight_at weights i);
  py_div p (PyInt (denominator stats i)).

(** One more position added to a running sum; a position whose denominator
    is zero adds nothing. *)
Definition add_position (denominator : list Z -> nat -> Z)
    (stats : list Z) (weights : list pynum)
    (acc : result pynum) (i : nat) : result pynum :=
  a ← acc;
  if denominator stats i =? 0 then Ok a
  else t ← position_score denominator stats weights i; py_add a t.

(** The sum over the positions, in their order, starting from the int 0. *)
Definition sum_over_positions (denominator : list Z -> nat -> Z)
    (stats : list Z) (weights : list pynum) : result pynum :=
  foldl (add_position denominator stats weights) (Ok (PyInt 0))
        (seq 0 (position_count stats weights)).

(** ** Search settings *)

(** Project settings as they come out of the project file: nested
    dictionaries, lists and scalars.  A dictionary is kept as the list of
    its items in iteration order; its keys are distinct. *)
Inductive pyval : Type :=
  | VNone
  | VBool (b : bool)
  | VInt (z : Z)
  | VStr (s : string)
  | VList (l : list pyval)
  | VDict (items : list (string * pyval)).

Fixpoint dict_get (items : list (string * pyval)) (key : string) : option pyval :=
  match items with
  | [] => None
  | (k, v) :: rest => if decide (k = key) then Some v else dict_get rest key
  end.

(** [v[key]] for a string key: [KeyError] on a dictionary without the key,
    [TypeError] on anything that is not a dictionary. *)
Definition getitem (v : pyval) (key : string) : result pyval :=
  match v with
  | VDict items =>
      match dict_get items key with
      | Some x => Ok x
      | None => Raise KeyError
      end
  | _ => Raise TypeError
  end.

(** [v.values()] *)
Definition values (v : pyval) : result (list pyval) :=
  match v with
  | VDict items => Ok (items.*2)
  | _ => Raise AttributeError
  end.

(** The loop of [valid_search_settings]:
    [for layerconfig in settings.values(): columns = layerconfig['columns']] *)
Fixpoint read_columns (layerconfigs : list pyval) : result unit :=
  match layerconfigs with
  | [] => Ok ()
  | layerconfig :: rest =>
      _ ← getitem layerconfig "columns"; read_columns rest
  end.

(** [try: body except KeyError: handler] *)
Definition except_KeyError {A} (body : result A) (handler : result A) : result A :=
  match body with
  | Raise KeyError => handler
  | r => r
  end.

(** [valid_search_settings(settings)] *)
Definition valid_search_settings (settings : pyval) : result (bool * pyval) :=
  except_KeyError
    (settings ← getitem settings "search";
     layerconfigs ← values settings;
     _ ← read_columns layerconfigs;
     Ok (true, settings))
    (Ok (false, VDict [])).

Definition has_columns (layerconfig : pyval) : bool :=
  match layerconfig with
  | VDict items => bool_decide (is_Some (dict_get items "columns"))
  | _ => false
  end.

Definition is_dict (v : pyval) : bool :=
  match v with VDict _ => true | _ => false end.

(** ** The index configuration

    What [IndexBuilder] works on: for each layer selector, in the iteration
    order of the dictionary, the list under ['columns']. *)
Definition indexconfig : Type := list (string * list string).

Definition as_column (v : pyval) : option string :=
  match v with VStr s => Some s | _ => None end.

Definition as_layerconfig (v : pyval) : option (list string) :=
  match v with
  | VDict items =>
      match dict_get items "columns" with
      | Some (VList cs) => mapM as_column cs
      | _ => None
      end
  | _ => None
  end.

(** The settings a validation returned, read as an index configuration. *)
Definition as_indexconfig (v : pyval) : option indexconfig :=
  match v with
  | VDict items =>
      mapM (fun kv => cols ← as_layerconfig kv.2; Some (kv.1, cols)) items
  | _ => None
  end.

(** ** Layers and features *)

(** A feature of a vector layer: [feature.id()] and, for a field of the
    layer, [str(feature[field])]. *)
Record feature : Type := {
  feature_id : Z;
  feature_value : string -> string;
}.

(** A vector layer: [layer.name()], the names of [layer.fields()] and
    [layer.getFeatures()] in the order it yields them. *)
Record layer : Type := {
  layer_name : string;
  layer_fields : list string;
  layer_features : list feature;
}.

(** The layer registry behind [roam.api.utils], which is outside this
    module and taken as a parameter: [layers(layertype=VectorLayer)], in
    the order it enumerates the loaded vector layers, and
    [layer_by_name(name)]. *)
Record layer_source : Type := {
  vector_layers : list layer;
  layer_by_name : string -> result layer;
}.

(** ** Index build *)

Definition dquote : string := String "034"%char "".

(** ['"{}"'.format(c)] *)
Definition quote_column (c : string) : string := dquote +:+ c +:+ dquote.

(** [get_columns()]: the two loops adding to one set. *)
Definition get_columns (cfg : indexconfig) : gset string :=
  foldl (fun columns config =>
           foldl (fun columns c => columns ∪ {[ quote_column c ]}) columns config.2)
        ∅ cfg.

(** The union of the configured column names. *)
Definition indexed_field_set (cfg : indexconfig) : gset string :=
  ⋃ ((fun config => list_to_set config.2) <$> cfg).

(** A yielded record: [(count, layer name, feature id, data)]. *)
Definition feature_record : Type := Z * string * Z * gmap string string.

Definition record_id (r : feature_record) : Z := r.1.1.1.
Definition record_layer (r : feature_record) : string := r.1.1.2.
Definition record_fid (r : feature_record) : Z := r.1.2.
Definition record_data (r : feature_record) : gmap string string := r.2.

(** The body of the feature loop that fills [data]. *)
Definition render (fields : gset string) (f : feature) : gmap string string :=
  set_fold (fun field data =>
              <[ quote_column field := field +:+ ": " +:+ feature_value f field ]> data)
           ∅ fields.

(** The feature loop of [get_data], [rowid] being its local counter. *)
Fixpoint get_data_features (name : string) (fields : gset string)
    (features : list feature) (rowid : Z) : list feature_record :=
  match features with
  | [] => []
  | f :: rest =>
      let data := render fields f in
      if decide (data = ∅) then get_data_features name fields rest rowid
      else
        let rowid := rowid + 1 in
        (rowid, name, feature_id f, data) :: get_data_features name fields rest rowid
  end.

(** [get_data(layer, config, rowid)], with [config['columns']] for
    [config]. *)
Definition get_data (l : layer) (columns : list string) (rowid : Z) : list feature_record :=
  let fields : gset string := list_to_set (layer_fields l) ∩ list_to_set columns in
  if decide (fields = ∅) then []
  else get_data_features (layer_name l) fields (layer_features l) rowid.

(** [rowid] after a loop [for count, ... in get_data(...): rowid = count]. *)
Definition last_count (rowid : Z) (rows : list feature_record) : Z :=
  foldl (fun _ row => record_id row) rowid rows.

(** The loop over the layers of the ["_all"] entry: the records yielded and
    the counter afterwards. *)
Fixpoint get_features_all (layers : list layer) (columns : list string) (rowid : Z)
    : list feature_record * Z :=
  match layers with
  | [] => ([], rowid)
  | l :: rest =>
      let rows := get_data l columns rowid in
      let '(more, rowid) := get_features_all rest columns (last_count rowid rows) in
      (rows ++ more, rowid)
  end.

(** The loop over the configuration entries: the records the generator
    yields and the exception that ends it, if one does. *)
Fixpoint get_features_from (src : layer_source) (cfg : indexconfig) (rowid : Z)
    : list feature_record * option pyexn :=
  match cfg with
  | [] => ([], None)
  | (layername, columns) :: rest =>
      if decide (layername = "_all") then
        let '(rows, rowid) := get_features_all (vector_layers src) columns rowid in
        let '(more, raised) := get_features_from src rest rowid in
        (rows ++ more, raised)
      else
        match layer_by_name src layername with
        | Raise IndexError => get_features_from src rest rowid
        | Raise e => ([], Some e)
        | Ok l =>
            let rows := get_data l columns rowid in
            let '(more, raised) := get_features_from src rest (last_count rowid rows) in
            (rows ++ more, raised)
        end
  end.

(** [get_features()] *)
Definition get_features (src : layer_source) (cfg : indexconfig)
    : list feature_record * option pyexn :=
  get_features_from src cfg 0.

(** *** The index artifact *)

(** A row of [featureinfo(id, layer, featureid)]. *)
Record info_row : Type := {
  info_id : Z;
  info_layer : string;
  info_featureid : Z;
}.

(** A row of the full-text table: its docid and the text of the columns it
    has a value for. *)
Record fts_row : Type := {
  docid : Z;
  fts_data : gmap string string;
}.

(** The two tables of [index.db]; [None] for a table that does not exist.
    The full-text table comes with the columns it was declared with. *)
Record database : Type := {
  featureinfo : option (list info_row);
  search_table : option (gset string * list fts_row);
}.

Definition info_of_record (r : feature_record) : info_row :=
  {| info_id := record_id r; info_layer := record_layer r;
     info_featureid := record_fid r |}.

Definition fts_of_record (r : feature_record) : fts_row :=
  {| docid := record_id r; fts_data := record_data r |}.

(** The index [build_index()] leaves when SQLite carries out every
    statement and takes each argument of [fts4(...)] for a column: both
    tables dropped and created again, the full-text one with the columns
    of [get_columns()], then one row in each per record; the commit is
    reached only when the generator ends without an exception.  What
    SQLite can do otherwise is in [build_index_on] below. *)
Definition build_index (src : layer_source) (cfg : indexconfig) : result database :=
  let columns := get_columns cfg in
  let '(rows, raised) := get_features src cfg in
  match raised with
  | Some e => Raise e
  | None =>
      Ok {| featureinfo := Some (info_of_record <$> rows);
            search_table := Some (columns, fts_of_record <$> rows) |}
  end.

(** The layer and the feature a record was made from. *)
Definition record_source (r : feature_record) : string * Z :=
  (record_layer r, record_fid r).

(** The (layer, feature) pairs in enumeration order: entries in
    configuration order, the layers of an ["_all"] entry in registry order,
    the features of a layer in its own order; a layer without any of the
    entry's columns has no part in it. *)
Definition enumerate_layer (l : layer) (columns : list string) : list (string * Z) :=
  if decide (list_to_set (layer_fields l) ∩ list_to_set columns = (∅ : gset string))
  then []
  else (fun f => (layer_name l, feature_id f)) <$> layer_features l.

Definition enumerate_entry (src : layer_source) (entry : string * list string)
    : list (string * Z) :=
  if decide (entry.1 = "_all") then
    vector_layers src ≫= fun l => enumerate_layer l entry.2
  else
    match layer_by_name src entry.1 with
    | Ok l => enumerate_layer l entry.2
    | Raise _ => []
    end.

(** The layers an entry of the configuration stands for: the vector
    layers of the registry for ["_all"], the layer the lookup of its name
    returns otherwise. *)
Definition layer_of_entry (src : layer_source) (entry : string * list string)
    (l : layer) : Prop :=
  if decide (entry.1 = "_all") then l ∈ vector_layers src
  else layer_by_name src entry.1 = Ok l.

(** ** The search panel *)

(** *** Text

    The text typed into the panel, the match expression and the statement
    made from it are looked at character by character, so such a [str] is
    kept as the list of its code points.  The names and values of the
    index are only compared, joined and stored; they stay strings. *)
Definition pystr : Type := list N.

(** The code points of a literal of the source, all of them ASCII. *)
Definition code_points (s : string) : pystr :=
  (fun a => N_of_ascii a) <$> String.list_ascii_of_string s.
Coercion code_points : string >-> pystr.

(** The characters [str.split()] and [str.isspace()] take for whitespace:
    the ASCII blanks and separators, NEL, the no-break space and the
    Unicode spaces up to the ideographic space U+3000. *)
Definition is_space (c : N) : bool :=
  ((0x09 <=? c) && (c <=? 0x0d) || (0x1c <=? c) && (c <=? 0x20)
   || (c =? 0x85) || (c =? 0xa0) || (c =? 0x1680)
   || (0x2000 <=? c) && (c <=? 0x200a)
   || (c =? 0x2028) || (c =? 0x2029) || (c =? 0x202f) || (c =? 0x205f)
   || (c =? 0x3000))%N.

(** The statement of [SearchPlugin.search], before and after the [{}] that
    [format] fills with the match expression. *)
Definition select_prefix : pystr :=
  "SELECT layer, featureid, snippet(search, '[',']') as snippet
                            FROM search
                            JOIN featureinfo on search.docid = featureinfo.id
                            WHERE search match '".

Definition select_suffix : pystr := "' LIMIT 100".

(** The statement with the match expression put in: the text handed to
    [c.execute]. *)
Definition select_statement (search : pystr) : pystr :=
  select_prefix ++ search ++ select_suffix.

(** *** Strings *)

(** [s.split()]: the maximal runs of characters that are not whitespace. *)
Fixpoint py_split (s : pystr) : list pystr :=
  match s with
  | [] => []
  | a :: rest =>
      if is_space a then py_split rest
      else
        match rest with
        | [] => [[a]]
        | b :: _ =>
            if is_space b then [a] :: py_split rest
            else
              match py_split rest with
              | t :: ts => (a :: t) :: ts
              | [] => [[a]]
              end
        end
  end.

(** [sep.join(l)], for texts and for strings. *)
Fixpoint text_join (sep : pystr) (l : list pystr) : pystr :=
  match l with
  | [] => []
  | [x] => x
  | x :: rest => x ++ sep ++ text_join sep rest
  end.

Fixpoint py_join (sep : string) (l : list string) : string :=
  match l with
  | [] => ""
  | [x] => x
  | x :: rest => x +:+ sep +:+ py_join sep rest
  end.

(** [s.replace('\n', ' ')] *)
Fixpoint replace_newlines (s : string) : string :=
  match s with
  | "" => ""
  | String a rest =>
      String (if Ascii.eqb a "010"%char then " "%char else a) (replace_newlines rest)
  end.

Definition has_char (c : N) (s : pystr) : bool := existsb (N.eqb c) s.

(** The single quote that ends a string literal of SQL. *)
Definition single_quote : N := 0x27.

Definition all_space (s : pystr) : bool := forallb is_space s.

Fixpoint strip_prefix (p s : pystr) : option pystr :=
  match p, s with
  | [], _ => Some s
  | a :: p, b :: s => if (a =? b)%N then strip_prefix p s else None
  | _ :: _, [] => None
  end.

Fixpoint strip_suffix (suffix s : pystr) : option pystr :=
  if bool_decide (s = suffix) then Some []
  else
    match s with
    | [] => None
    | a :: rest => cons a <$> strip_suffix suffix rest
    end.

(** *** SQLite *)

(** A row of a query result: [(layer, featureid, snippet)]. *)
Definition hit : Type := string * Z * string.

(** SQLite and its FTS4 module, outside this module and taken as a
    parameter: what [sqlite3.connect(path)] finds, the rows a match
    expression selects ([None] for an expression FTS4 refuses), the text
    [snippet(search, '[', ']')] makes of a selected row, the blob
    [matchinfo(search)] would give for it, what any statement other than
    the select of the panel does, and the byte order of the machine. *)
Record sqlite : Type := {
  sqlite_connect : string -> result database;
  fts_match : pystr -> option (fts_row -> bool);
  fts_snippet : pystr -> fts_row -> string;
  fts_matchinfo : pystr -> list fts_row -> fts_row -> list byte;
  other_statement : database -> pystr -> result (list hit);
  machine_byteorder : byteorder;
}.

(** The match expression of a statement that is the select of the panel
    with an expression that stays inside its quotes. *)
Definition match_expression_of (sql : pystr) : option pystr :=
  rest ← strip_prefix select_prefix sql;
  expr ← strip_suffix select_suffix rest;
  if has_char single_quote expr then None else Some expr.

(** [SELECT layer, featureid, snippet(...) FROM search JOIN featureinfo ON
    search.docid = featureinfo.id WHERE search MATCH expr LIMIT 100]: the
    matching rows of the full-text table in the order the table holds
    them, each with the [featureinfo] rows of the same id, cut after 100
    rows.  A missing table or a refused expression is an
    [OperationalError]. *)
Definition select_hits (eng : sqlite) (db : database) (expr : pystr) : result (list hit) :=
  match search_table db, featureinfo db with
  | Some (_, rows), Some infos =>
      match fts_match eng expr with
      | None => Raise OperationalError
      | Some matches =>
          Ok (take 100
                (filter (fun row => matches row = true) rows ≫= fun row =>
                 (fun info => (info_layer info, info_featureid info, fts_snippet eng expr row))
                   <$> filter (fun info => info_id info = docid row) infos))
      end
  | _, _ => Raise OperationalError
  end.

(** [c.execute(sql).fetchall()] *)
Definition execute (eng : sqlite) (db : database) (sql : pystr) : result (list hit) :=
  match match_expression_of sql with
  | Some expr => select_hits eng db expr
  | None => other_statement eng db sql
  end.

(** *** The panel *)

(** What the panel does with the storage. *)
Inductive db_event : Type :=
  | DbConnect (path : string)
  | DbCreateFunction (name : string) (nargs : Z) (weights : list pynum)
  | DbCursor
  | DbExecute (sql : pystr)
  | DbClose.

(** An item of [resultsView]: its text and its [Qt.UserRole + 1] data. *)
Record item : Type := {
  item_text : string;
  item_data : option hit;
}.

(** The state of the panel that [search] reads and writes. *)
Record panel : Type := {
  dbpath : option string;
  fuzzyCheck : bool;
  resultsView : list item;
  resultsView_enabled : bool;
  db_log : list db_event;
}.

(** A method of the panel: it changes the panel and returns or raises;
    what it changed before raising stays changed. *)
Definition action (A : Type) : Type := panel -> result A * panel.

#[global] Instance action_ret : MRet action := fun A a p => (Ok a, p).
#[global] Instance action_bind : MBind action := fun A B f m p =>
  match m p with
  | (Ok a, p') => f a p'
  | (Raise e, p') => (Raise e, p')
  end.

Definition lift {A} (r : result A) : action A := fun p => (r, p).
Definition get_dbpath : action (option string) := fun p => (Ok (dbpath p), p).
Definition fuzzyCheck_isChecked : action bool := fun p => (Ok (fuzzyCheck p), p).
Definition log (ev : db_event) : action unit := fun p =>
  (Ok (), {| dbpath := dbpath p; fuzzyCheck := fuzzyCheck p;
             resultsView := resultsView p;
             resultsView_enabled := resultsView_enabled p;
             db_log := db_log p ++ [ev] |}).
Definition resultsView_clear : action unit := fun p =>
  (Ok (), {| dbpath := dbpath p; fuzzyCheck := fuzzyCheck p;
             resultsView := [];
             resultsView_enabled := resultsView_enabled p;
             db_log := db_log p |}).
Definition resultsView_setEnabled (b : bool) : action unit := fun p =>
  (Ok (), {| dbpath := dbpath p; fuzzyCheck := fuzzyCheck p;
             resultsView := resultsView p;
             resultsView_enabled := b;
             db_log := db_log p |}).
Definition resultsView_addItem (it : item) : action unit := fun p =>
  (Ok (), {| dbpath := dbpath p; fuzzyCheck := fuzzyCheck p;
             resultsView := resultsView p ++ [it];
             resultsView_enabled := resultsView_enabled p;
             db_log := db_log p |}).
Definition resultsView_count : action nat := fun p => (Ok (length (resultsView p)), p).

(** The property [SearchPlugin.db]: a new connection to [self.dbpath] with
    [rank] registered on it.  [sqlite3.connect(None)] is a [TypeError]. *)
Definition db (eng : sqlite) : action database :=
  path ← get_dbpath;
  match path with
  | None => lift (Raise TypeError)
  | Some path =>
      conn ← lift (sqlite_connect eng path);
      _ ← log (DbConnect path);
      _ ← log (DbCreateFunction "rank" 1 default_weights);
      mret conn
  end.

(** The match expression [search] builds from the text. *)
Definition match_expression (fuzzy : bool) (text : pystr) : pystr :=
  if fuzzy then text_join "* " (py_split text) ++ code_points "*" else text.

(** The loop that shows the rows. *)
Fixpoint add_hits (query : list hit) : action unit :=
  match query with
  | [] => mret ()
  | (layer, featureid, snippet) :: rest =>
      _ ← resultsView_addItem
            {| item_text := layer +:+ String "010"%char " " +:+ replace_newlines snippet;
               item_data := Some (layer, featureid, snippet) |};
      add_hits rest
  end.

(** [SearchPlugin.search(text)] *)
Definition search (eng : sqlite) (text : pystr) : action unit :=
  conn ← db eng;
  _ ← log DbCursor;
  _ ← resultsView_clear;
  _ ← resultsView_setEnabled false;
  if decide (text = "") then mret ()
  else
    fuzzy ← fuzzyCheck_isChecked;
    let search := match_expression fuzzy text in
    _ ← log (DbExecute (select_statement search));
    query ← lift (execute eng conn (select_statement search));
    _ ← add_hits query;
    _ ← resultsView_setEnabled true;
    n ← resultsView_count;
    _ ← (if decide (n = 0%nat) then
           _ ← resultsView_addItem {| item_text := "No Results"; item_data := None |};
           resultsView_setEnabled false
         else mret ());
    log DbClose.

(** The rows a panel shows: the data of its items. *)
Definition shown_rows (p : panel) : list hit := omap item_data (resultsView p).

(** *** Weights for which every conversion to float is finite *)

(** A float, or an int of magnitude at most [2^32]. *)
Definition small_weight (w : pynum) : Prop :=
  match w with
  | PyFloat _ => True
  | PyInt z => Z.abs z <= 2 ^ 32
  end.

(** A layer entry whose ['columns'] is a list with at least one element. *)
Definition has_nonempty_columns (layerconfig : pyval) : bool :=
  match layerconfig with
  | VDict items =>
      match dict_get items "columns" with
      | Some (VList (_ :: _)) => true
      | _ => false
      end
  | _ => false
  end.

(** ** A small project, for examples *)

Definition demo_feature (fid : Z) (name : string) : feature :=
  {| feature_id := fid;
     feature_value := fun field => if decide (field = "name") then name else "NULL" |}.

Definition demo_hydrants : layer :=
  {| layer_name := "hydrants";
     layer_fields := ["name"; "zone"];
     layer_features := [demo_feature 7 "hydrant"; demo_feature 8 "valve";
                        demo_feature 9 "hydrant hydrant"] |}.

(** A registry with one vector layer; looking up any other name raises
    [IndexError]. *)
Definition demo_source : layer_source :=
  {| vector_layers := [demo_hydrants];
     layer_by_name := fun name =>
       if decide (name = "hydrants") then Ok demo_hydrants else Raise IndexError |}.

(** Two entries on one column; no layer is called ["mains"]. *)
Definition demo_config : indexconfig :=
  [("mains", ["name"]); ("hydrants", ["name"])].

(** ** What a run of [search] leaves behind *)

(** The item [search] makes of a row. *)
Definition item_of_hit (h : hit) : item :=
  {| item_text := h.1.1 +:+ String "010"%char " " +:+ replace_newlines h.2;
     item_data := Some h |}.

(** A panel with another content of the view and more events in its log. *)
Definition with_view (p : panel) (items : list item) (enabled : bool)
    (events : list db_event) : panel :=
  {| dbpath := dbpath p; fuzzyCheck := fuzzyCheck p;
     resultsView := items; resultsView_enabled := enabled;
     db_log := db_log p ++ events |}.

(** The events of opening the connection and taking a cursor. *)
Definition opening_events (path : string) : list db_event :=
  [DbConnect path; DbCreateFunction "rank" 1 default_weights; DbCursor].

(** The view after the rows of a query were shown. *)
Definition view_of_hits (query : list hit) : list item * bool :=
  match query with
  | [] => ([ {| item_text := "No Results"; item_data := None |} ], false)
  | _ => (item_of_hit <$> query, true)
  end.

(** ** An engine for examples

    An expression is a list of terms that must all occur in a row; a term
    is a word, or the beginning of a word followed by a star; a star alone
    is no term, and an expression without a term selects no row.  The
    snippet is the text of the row with the words a term matches put
    between brackets.  The statistics are those FTS4 reports for the first
    term on one column: one phrase, one column, then the hits in the row,
    the hits in all rows and the rows with a hit. *)

Definition demo_words (row : fts_row) : list string :=
  map_to_list (fts_data row) ≫= fun kv => String.words kv.2.

Definition demo_terms (expr : pystr) : list pystr :=
  filter (fun t => t <> code_points "*") (py_split expr).

Definition demo_term_matches (term : pystr) (word : string) : bool :=
  match strip_suffix "*" term with
  | Some beginning => bool_decide (is_Some (strip_prefix beginning word))
  | None => bool_decide (term = word)
  end.

Definition demo_hits (term : pystr) (row : fts_row) : Z :=
  Z.of_nat (length (filter (fun w => demo_term_matches term w = true) (demo_words row))).

Definition demo_first_term (expr : pystr) : pystr :=
  default [] (head (demo_terms expr)).

Definition demo_snippet (expr : pystr) (row : fts_row) : string :=
  py_join " "
    ((fun w => if existsb (fun t => demo_term_matches t w) (demo_terms expr)
               then "[" +:+ w +:+ "]" else w) <$> demo_words row).

Definition byte_of_Z (z : Z) : byte :=
  default x00 (Byte.of_N (Z.to_N (z `mod` 256))).

(** Four bytes of one unsigned 32-bit integer, in little-endian order. *)
Definition pack_I (ws : list Z) : list byte :=
  ws ≫= fun w => [byte_of_Z w; byte_of_Z (w `div` 2 ^ 8);
                  byte_of_Z (w `div` 2 ^ 16); byte_of_Z (w `div` 2 ^ 24)].

Definition demo_engine (found : result database) : sqlite :=
  {| sqlite_connect := fun _ => found;
     fts_match := fun expr =>
       Some (fun row =>
               match demo_terms expr with
               | [] => false
               | terms => forallb (fun t => bool_decide (0 < demo_hits t row)) terms
               end);
     fts_snippet := demo_snippet;
     fts_matchinfo := fun expr rows row =>
       let term := demo_first_term expr in
       pack_I [1; 1; demo_hits term row;
               foldr Z.add 0 (demo_hits term <$> rows);
               Z.of_nat (length (filter (fun r => 0 < demo_hits term r) rows))];
     other_statement := fun _ _ => Raise OperationalError;
     machine_byteorder := LittleEndian |}.

(** The index of the small project. *)
Definition demo_database : result database := build_index demo_source demo_config.

(** An index whose tables a rebuild has just dropped. *)
Definition dropped_database : database :=
  {| featureinfo := None; search_table := None |}.

(** The panel once an index was built, before any search. *)
Definition demo_panel (fuzzy : bool) : panel :=
  {| dbpath := Some "index.db"; fuzzyCheck := fuzzy; resultsView := [];
     resultsView_enabled := true; db_log := [] |}.

(** ** Tokens *)

Definition has_space (s : pystr) : bool := existsb is_space s.

(** A token: at least one character and no whitespace. *)
Definition is_token (t : pystr) : Prop := t <> [] /\ has_space t = false.

(** A token with the wildcard of a prefix term after it. *)
Definition prefix_term (t : pystr) : pystr := t ++ code_points "*".

(** The rows of the full-text table of the small project. *)
Definition demo_rows : list fts_row :=
  match demo_database with
  | Ok {| search_table := Some (_, rows) |} => rows
  | _ => []
  end.

(** ** Jumping to a result *)

(** What [jump_to] asks of the main window and of [RoamEvents]. *)
Inductive nav_event : Type :=
  | ShowMap
  | ZoomToFeatureIds (l : layer) (fids : list Z)
  | SelectionChanged (l : layer) (features : list feature).

(** How [jump_to] ends: it returns after some events, or an exception of
    the layer lookup leaves it, or [next] finds the iterator empty. *)
Inductive jump_result : Type :=
  | JumpReturned (events : list nav_event)
  | JumpRaised (e : pyexn)
  | JumpStopIteration.

(** [layer.getFeatures(QgsFeatureRequest(fid))] *)
Definition features_by_id (l : layer) (fid : Z) : list feature :=
  filter (fun f => feature_id f = fid) (layer_features l).

(** [SearchPlugin.jump_to(item)] *)
Definition jump_to (src : layer_source) (it : item) : jump_result :=
  match item_data it with
  | None => JumpReturned []
  | Some (layername, fid, _) =>
      match layer_by_name src layername with
      | Raise e => JumpRaised e
      | Ok l =>
          match features_by_id l fid with
          | [] => JumpStopIteration
          | f :: _ =>
              JumpReturned [ShowMap; ZoomToFeatureIds l [fid]; SelectionChanged l [f]]
          end
      end
  end.

(** ** The statements of the index build *)

(** [s * n] *)
Fixpoint py_repeat (s : string) (n : nat) : string :=
  match n with
  | O => ""
  | S n => s +:+ py_repeat s n
  end.

(** [s.lstrip(c)] and [s.rstrip(c)] for one character [c]. *)
Fixpoint py_lstrip (c : ascii) (s : string) : string :=
  match s with
  | "" => ""
  | String a rest => if Ascii.eqb a c then py_lstrip c rest else s
  end.

Fixpoint py_rstrip (c : ascii) (s : string) : string :=
  match s with
  | "" => ""
  | String a rest =>
      match py_rstrip c rest with
      | "" => if Ascii.eqb a c then "" else String a ""
      | kept => String a kept
      end
  end.

(** [s.strip(c)] *)
Definition py_strip (c : ascii) (s : string) : string := py_lstrip c (py_rstrip c s).

(** A value bound to a [?] of a statement. *)
Inductive sql_value : Type :=
  | SqlInt (z : Z)
  | SqlText (s : string).

(** What [IndexBuilder.build_index] does with the connection, and the
    signals it emits; the elapsed time [indexBuilt] carries is left out. *)
Inductive builder_event : Type :=
  | BConnect (dbpath : string)
  | BExecute (sql : string) (params : list sql_value)
  | BCommit
  | BClose
  | BEmitIndexBuilt (dbpath : string)
  | BEmitFinished.

(** [c.execute("INSERT INTO featureinfo(id, layer, featureid) VALUES(?, ?, ?)",
    (row[0], row[1], row[2]))] *)
Definition insert_featureinfo (row : feature_record) : builder_event :=
  BExecute "INSERT INTO featureinfo(id, layer, featureid) VALUES(?, ?, ?)"
           [SqlInt (record_id row); SqlText (record_layer row); SqlInt (record_fid row)].

(** ["?," * len(data.values())], stripped of commas. *)
Definition placeholders (n : nat) : string := py_strip ","%char (py_repeat "?," n).

(** The insert into the full-text table: the keys and the values of [data]
    in the one order the dictionary has, the id written into the text. *)
Definition insert_search (row : feature_record) : builder_event :=
  let data := map_to_list (record_data row) in
  let fields := py_join "," data.*1 in
  BExecute ("INSERT INTO search(docid, " +:+ fields +:+ ") VALUES("
            +:+ pretty (record_id row) +:+ ", " +:+ placeholders (length data.*2) +:+ ")")
           (SqlText <$> data.*2).

(** The statements before the full-text table is created. *)
Definition drop_and_create : list builder_event :=
  [BExecute "DROP TABLE IF EXISTS search" [];
   BExecute "DROP TABLE IF EXISTS featureinfo" [];
   BExecute "CREATE TABLE featureinfo(id INTEGER PRIMARY KEY, layer, featureid)" []].

(** The two inserts of one yielded row. *)
Definition insert_row (row : feature_record) : list builder_event :=
  [insert_featureinfo row; insert_search row].

(** [c.execute("CREATE VIRTUAL TABLE search USING fts4({})".format(columns))]
    with [columns = ','.join(args)]. *)
Definition create_search_table (args : list string) : builder_event :=
  BExecute ("CREATE VIRTUAL TABLE search USING fts4(" +:+ py_join "," args +:+ ")") [].

(** *** The build against SQLite

    What SQLite makes of the build is outside this module and taken as a
    parameter: the exception with which it refuses to connect, to execute
    a statement or to commit after the events carried out so far, if it
    does; and what its FTS4 module makes of the arguments of
    [CREATE VIRTUAL TABLE search USING fts4(...)]: a refusal, or the
    columns of the table it creates. *)
Record build_engine : Type := {
  refuses : list builder_event -> builder_event -> option pyexn;
  fts4_declare : list string -> result (list string);
}.

(** Closing a connection and emitting a signal are not up to SQLite. *)
Definition refusal (eng : build_engine) (done : list builder_event)
    (ev : builder_event) : option pyexn :=
  match ev with
  | BConnect _ | BExecute _ _ | BCommit => refuses eng done ev
  | BClose | BEmitIndexBuilt _ | BEmitFinished => None
  end.

(** The calls of a script one after the other, until one raises: the
    events carried out and the exception, if any. *)
Fixpoint carry_out (eng : build_engine) (done todo : list builder_event)
    : list builder_event * option pyexn :=
  match todo with
  | [] => (done, None)
  | ev :: rest =>
      match refusal eng done ev with
      | Some e => (done, Some e)
      | None => carry_out eng (done ++ [ev]) rest
      end
  end.

(** The calls up to and including the creation of the two tables. *)
Definition create_tables (eng : build_engine) (cfg : indexconfig) (dbpath : string)
    : list builder_event * option pyexn :=
  match carry_out eng [] (BConnect dbpath :: drop_and_create) with
  | (done, Some e) => (done, Some e)
  | (done, None) =>
      let args := elements (get_columns cfg) in
      match fts4_declare eng args with
      | Raise e => (done, Some e)
      | Ok _ => (done ++ [create_search_table args], None)
      end
  end.

(** [IndexBuilder.build_index()] as the events it causes, [dbpath] being
    [os.path.join(self.indexpath, "index.db")]: the tables are created, the
    rows are inserted as the generator yields them, and an exception of
    SQLite or of the generator leaves the method before the commit.
    [quit] closes once more and emits [finished]. *)
Definition build_index_events (eng : build_engine) (src : layer_source)
    (cfg : indexconfig) (dbpath : string) : list builder_event * option pyexn :=
  match create_tables eng cfg dbpath with
  | (done, Some e) => (done, Some e)
  | (done, None) =>
      let '(rows, raised) := get_features src cfg in
      match carry_out eng done (rows ≫= insert_row) with
      | (done, Some e) => (done, Some e)
      | (done, None) =>
          match raised with
          | Some e => (done, Some e)
          | None =>
              carry_out eng done
                [BCommit; BClose; BEmitIndexBuilt dbpath; BClose; BEmitFinished]
          end
      end
  end.

(** The index a build leaves: the tables of a build that ran to its end,
    the full-text one with the columns FTS4 made of the arguments. *)
Definition build_index_on (eng : build_engine) (src : layer_source)
    (cfg : indexconfig) (dbpath : string) : result database :=
  match build_index_events eng src cfg dbpath with
  | (_, Some e) => Raise e
  | (_, None) =>
      columns ← fts4_declare eng (elements (get_columns cfg));
      let rows := (get_features src cfg).1 in
      Ok {| featureinfo := Some (info_of_record <$> rows);
            search_table := Some (list_to_set columns, fts_of_record <$> rows) |}
  end.

(** An SQLite that carries out every statement and takes each argument of
    [fts4(...)] for a column. *)
Definition accepting_engine : build_engine :=
  {| refuses := fun _ _ => None; fts4_declare := fun args => Ok args |}.

(** *** FTS4 for examples

    What FTS4 does with arguments that are quoted names of letters:
    without an argument the table has the one column [content]; it
    refuses two names that differ only in case, and a name that is [docid]
    or the name of the table. *)
Definition lower_ascii (a : ascii) : ascii :=
  let n := nat_of_ascii a in
  if bool_decide (65 <= n <= 90)%nat then ascii_of_nat (n + 32) else a.

Fixpoint lower (s : string) : string :=
  match s with
  | "" => ""
  | String a rest => String (lower_ascii a) (lower rest)
  end.

Definition demo_fts4 (args : list string) : result (list string) :=
  match args with
  | [] => Ok [quote_column "content"]
  | _ =>
      let names := lower <$> args in
      if bool_decide (NoDup names)
         && bool_decide (quote_column "docid" ∉ names)
         && bool_decide (quote_column "search" ∉ names)
      then Ok args else Raise OperationalError
  end.

Definition demo_build_engine : build_engine :=
  {| refuses := fun _ _ => None; fts4_declare := demo_fts4 |}.

(** ** The columns of settings as they are

    [get_columns] once more, on the value [valid_search_settings] hands to
    the builder rather than on a configuration already read as lists of
    names. *)

(** The characters of a string, each a string of its own. *)
Fixpoint string_chars (s : string) : list string :=
  match s with
  | "" => []
  | String a rest => String a "" :: string_chars rest
  end.

(** What a [for] loop over a value goes through: the elements of a list,
    the characters of a string, the keys of a dictionary; anything else is
    not iterable. *)
Definition py_iter (v : pyval) : result (list pyval) :=
  match v with
  | VList l => Ok l
  | VStr s => Ok (VStr <$> string_chars s)
  | VDict items => Ok (VStr <$> items.*1)
  | VNone | VBool _ | VInt _ => Raise TypeError
  end.

(** The loop [for config in self.indexconfig.values()] with its inner loop
    [for c in config['columns']]; [py_str c] is the text that
    ['"{}"'.format(c)] puts between the quotes. *)
Fixpoint get_columns_loop (py_str : pyval -> string) (columns : gset string)
    (configs : list pyval) : result (gset string) :=
  match configs with
  | [] => Ok columns
  | config :: rest =>
      cols ← getitem config "columns";
      cs ← py_iter cols;
      get_columns_loop py_str
        (foldl (fun columns c => columns ∪ {[ quote_column (py_str c) ]}) columns cs)
        rest
  end.

(** [get_columns()] on settings as they are. *)
Definition get_columns_raw (py_str : pyval -> string) (indexconfig : pyval)
    : result (gset string) :=
  configs ← values indexconfig;
  get_columns_loop py_str ∅ configs.

(** A layer entry whose ['columns'] can be iterated. *)
Definition iterable_columns (layerconfig : pyval) : Prop :=
  exists cols cs, getitem layerconfig "columns" = Ok cols /\ py_iter cols = Ok cs.

(** A text for examples: a string as it is, anything else as a fixed
    mark. *)
Definition demo_str (v : pyval) : string :=
  match v with
  | VStr s => s
  | _ => "?"
  end.

(** * Properties *)

(** ** Lists taken three and four at a time *)

Lemma list_ind_by_3 {A} (P : list A -> Prop) :
  P [] -> (forall a, P [a]) -> (forall a b, P [a; b]) ->
  (forall a b c l, P l -> P (a :: b :: c :: l)) ->
  forall l, P l.
Proof.
  intros H0 H1 H2 H3. fix IH 1.
  intros [|a [|b [|c l]]];
    [apply H0 | apply H1 | apply H2 | apply H3, IH].
Qed.

Lemma list_ind_by_4 {A} (P : list A -> Prop) :
  P [] -> (forall a, P [a]) -> (forall a b, P [a; b]) ->
  (forall a b c, P [a; b; c]) ->
  (forall a b c d l, P l -> P (a :: b :: c :: d :: l)) ->
  forall l, P l.
Proof.
  intros H0 H1 H2 H3 H4. fix IH 1.
  intros [|a [|b [|c [|d l]]]];
    [apply H0 | apply H1 | apply H2 | apply H3 | apply H4, IH].
Qed.

(** ** The rank function *)

Lemma byte_val_range b : 0 <= byte_val b < 256.
Proof. unfold byte_val. pose proof (Byte.to_N_bounded b). lia. Qed.

Lemma word_of_bytes_range bo b0 b1 b2 b3 :
  0 <= word_of_bytes bo b0 b1 b2 b3 < 2 ^ 32.
Proof.
  pose proof (byte_val_range b0). pose proof (byte_val_range b1).
  pose proof (byte_val_range b2). pose proof (byte_val_range b3).
  destruct bo; unfold word_of_bytes; lia.
Qed.

(** The unpacked values are unsigned 32-bit integers. *)
Lemma struct_unpack_I_range bo blob stats :
  struct_unpack_I bo blob = Ok stats ->
  Forall (fun w => 0 <= w < 2 ^ 32) stats.
Proof.
  revert stats. induction blob as [| | | |b0 b1 b2 b3 rest IH] using list_ind_by_4;
    intros stats Hu; simpl in Hu; try discriminate.
  - injection Hu as <-. constructor.
  - destruct (struct_unpack_I bo rest) as [ws|e]; simpl in Hu; [|discriminate].
    injection Hu as <-. constructor; [apply word_of_bytes_range | by apply IH].
Qed.

(** A blob is unpacked exactly when its length is a multiple of four. *)
Lemma struct_unpack_I_ok bo blob :
  is_ok (struct_unpack_I bo blob) = true <-> (length blob mod 4 = 0)%nat.
Proof.
  induction blob as [| | | |b0 b1 b2 b3 rest IH] using list_ind_by_4;
    try (split; [discriminate | intros H; discriminate H]); [done|].
  replace (length (b0 :: b1 :: b2 :: b3 :: rest)) with (length rest + 1 * 4)%nat
    by (simpl; lia).
  rewrite Nat.Div0.mod_add, <- IH. cbn [struct_unpack_I].
  by destruct (struct_unpack_I bo rest).
Qed.

Lemma zip_it_it_it_lookup l j x :
  zip_it_it_it l !! j = Some x ->
  x = (default 0 (l !! (3 * j)%nat), default 0 (l !! (1 + 3 * j)%nat),
       default 0 (l !! (2 + 3 * j)%nat)).
Proof.
  revert j. induction l as [| | |a b c l IH] using list_ind_by_3;
    intros [|j] Hj; simpl in Hj; try discriminate.
  - by injection Hj as <-.
  - rewrite (IH j Hj).
    replace (3 * S j)%nat with (S (S (S (3 * j)))) by lia.
    replace (1 + S (S (S (3 * j))))%nat with (S (S (S (1 + 3 * j)))) by lia.
    replace (2 + S (S (S (3 * j))))%nat with (S (S (S (2 + 3 * j)))) by lia.
    reflexivity.
Qed.

Lemma zip_it_it_it_length l : length (zip_it_it_it l) = (length l / 3)%nat.
Proof.
  induction l as [| | |a b c l IH] using list_ind_by_3; try reflexivity.
  replace (length (a :: b :: c :: l)) with (1 * 3 + length l)%nat by (simpl; lia).
  rewrite Nat.div_add_l by lia. simpl. by rewrite IH.
Qed.

Lemma zip_it_it_it_Forall (P : Z -> Prop) l j x :
  Forall P l -> zip_it_it_it l !! j = Some x -> P x.1.1 /\ P x.1.2 /\ P x.2.
Proof.
  revert j. induction l as [| | |a b c l IH] using list_ind_by_3;
    intros [|j] Hl Hj; simpl in Hj; try discriminate;
    apply Forall_cons in Hl as [Ha Hl]; apply Forall_cons in Hl as [Hb Hl];
    apply Forall_cons in Hl as [Hc Hl].
  - by injection Hj as <-.
  - by apply (IH j).
Qed.

(** The triples the iterator yields are the positions of the layout. *)
Lemma position_lookup stats j x :
  zip_it_it_it (drop 2 stats) !! j = Some x ->
  x = (hits_in_row stats j, hits_total_docs stats j, docs_containing_term stats j).
Proof.
  intros Hj. rewrite (zip_it_it_it_lookup _ _ _ Hj), !lookup_drop.
  unfold hits_in_row, hits_total_docs, docs_containing_term, stat_at.
  repeat f_equal; lia.
Qed.

Lemma add_position_raise denominator stats weights e l :
  foldl (add_position denominator stats weights) (Raise e) l = Raise e.
Proof. induction l as [|i l IH]; [done|]. simpl. exact IH. Qed.

(** The accumulating loop of [sum] against the sum over positions. *)
Lemma sum_ranked_positions stats weights xs : forall acc k,
  (forall j x w, xs !! j = Some (x, w) ->
     x = (hits_in_row stats (k + j), hits_total_docs stats (k + j),
          docs_containing_term stats (k + j))
     /\ w = weight_at weights (k + j)) ->
  sum_ranked acc xs
  = foldl (add_position hits_total_docs stats weights) (Ok acc) (seq k (length xs)).
Proof.
  induction xs as [|[[[x0 x1] x2] w] xs IH]; intros acc k Hxs; [done|].
  destruct (Hxs 0%nat _ _ eq_refl) as [Hx Hw]. rewrite Nat.add_0_r in Hx, Hw.
  injection Hx as Hx0 Hx1 Hx2.
  assert (Hrest : forall j x w', xs !! j = Some (x, w') ->
     x = (hits_in_row stats (S k + j), hits_total_docs stats (S k + j),
          docs_containing_term stats (S k + j))
     /\ w' = weight_at weights (S k + j)).
  { intros j x w' Hj. specialize (Hxs (S j) x w' Hj).
    by replace (k + S j)%nat with (S k + j)%nat in Hxs by lia. }
  cbn [sum_ranked length seq foldl].
  unfold add_position at 2, position_score. cbn [mbind result_bind].
  rewrite <- Hx0, <- Hx1, <- Hw.
  destruct (x1 =? 0); [by apply IH|].
  destruct (py_mul (PyInt x0) w) as [p|e]; cbn [mbind result_bind];
    [|by rewrite add_position_raise].
  destruct (py_div p (PyInt x1)) as [t|e]; cbn [mbind result_bind];
    [|by rewrite add_position_raise].
  destruct (py_add acc t) as [acc'|e]; cbn [mbind result_bind];
    [by apply IH|by rewrite add_position_raise].
Qed.

Lemma rank_positions_length stats weights :
  length (zip (zip_it_it_it (drop 2 stats)) weights) = position_count stats weights.
Proof.
  unfold position_count.
  by rewrite length_zip, zip_it_it_it_length, length_drop.
Qed.

(** The sum of [rank] on the unpacked values is the sum over positions
    with the hits in all rows as denominator. *)
Lemma rank_sum_unpacked stats weights :
  sum_ranked (PyInt 0) (zip (zip_it_it_it (drop 2 stats)) weights)
  = sum_over_positions hits_total_docs stats weights.
Proof.
  unfold sum_over_positions. rewrite <- rank_positions_length.
  apply sum_ranked_positions. intros j x w Hj.
  apply lookup_zip_with_Some in Hj as (x' & w' & [= -> ->] & Hx & Hw).
  split; [by apply position_lookup|].
  unfold weight_at. change (0 + j)%nat with j. by rewrite Hw.
Qed.

Lemma float_of_int_raises z e : float_of_int z = Raise e -> e = OverflowError.
Proof. unfold float_of_int. destruct (_ <=? _); congruence. Qed.

Lemma int_true_divide_raises x y e :
  y <> 0 -> int_true_divide x y = Raise e -> e = OverflowError.
Proof.
  intros Hy. unfold int_true_divide.
  destruct (Z.eqb_spec y 0) as [|_]; [done|].
  destruct (_ <=? _); congruence.
Qed.

(** No step of the sum divides by zero. *)
Lemma sum_ranked_no_zero_division xs : forall acc,
  sum_ranked acc xs <> Raise ZeroDivisionError.
Proof.
  induction xs as [|[[[x0 x1] x2] w] xs IH]; intros acc; [done|].
  cbn [sum_ranked]. destruct (Z.eqb_spec x1 0) as [|Hx1]; [apply IH|].
  assert (Hadd : forall t, (acc' ← py_add acc t; sum_ranked acc' xs)
                           <> Raise ZeroDivisionError).
  { intros t. destruct acc as [a|a], t as [b|b]; cbn [py_add mbind result_bind];
      try apply IH; destruct (float_of_int _) as [f|e] eqn:Hf;
      cbn [mbind result_bind]; try apply IH;
      intros [= ->]; by apply float_of_int_raises in Hf. }
  destruct w as [y|g]; cbn [py_mul mbind result_bind].
  - cbn [py_div]. destruct (int_true_divide (x0 * y) x1) as [f|e] eqn:Hf;
      cbn [mbind result_bind]; [apply Hadd|].
    intros [= ->]. by apply int_true_divide_raises in Hf.
  - destruct (float_of_int x0) as [f|e] eqn:Hf; cbn [mbind result_bind].
    2:{ intros [= ->]. by apply float_of_int_raises in Hf. }
    cbn [py_div]. destruct (float_of_int x1) as [f1|e] eqn:Hf1; cbn [mbind result_bind].
    2:{ intros [= ->]. by apply float_of_int_raises in Hf1. }
    destruct (Z.eqb_spec x1 0) as [|_]; [done|]. cbn [mbind result_bind]. apply Hadd.
Qed.

Lemma float_of_int_small z :
  Z.abs z <= 2 ^ 96 -> exists f, float_of_int z = Ok f.
Proof.
  intros Hz. unfold float_of_int.
  assert (Hb : 2 ^ 96 < float_overflow_bound) by reflexivity.
  destruct (Z.leb_spec float_overflow_bound (Z.abs z)) as [Hle|_]; [|by eexists].
  exfalso. apply (Z.lt_irrefl (2 ^ 96)).
  apply Z.lt_le_trans with float_overflow_bound; [exact Hb|].
  by apply Z.le_trans with (Z.abs z).
Qed.

Lemma int_true_divide_small x y :
  y <> 0 -> Z.abs x <= 2 ^ 96 -> exists f, int_true_divide x y = Ok f.
Proof.
  intros Hy Hx. unfold int_true_divide.
  destruct (Z.eqb_spec y 0) as [|_]; [done|].
  assert (Hb : 2 ^ 96 < float_overflow_bound) by reflexivity.
  destruct (Z.leb_spec (float_overflow_bound * Z.abs y) (Z.abs x)) as [Hle|_];
    [|by eexists].
  exfalso. apply (Z.lt_irrefl (2 ^ 96)).
  apply Z.lt_le_trans with float_overflow_bound; [exact Hb|].
  apply Z.le_trans with (Z.abs x); [|exact Hx].
  apply Z.le_trans with (float_overflow_bound * Z.abs y); [|exact Hle].
  rewrite <- (Z.mul_1_r float_overflow_bound) at 1.
  apply Z.mul_le_mono_nonneg_l; [by apply Z.lt_le_incl, Z.lt_trans with (2 ^ 96)|lia].
Qed.

(** With unpacked 32-bit values and small weights no conversion overflows:
    the sum starts from the int [0] and is a float from the first term
    on. *)
Lemma sum_ranked_small xs : forall acc,
  match acc with PyInt a => a = 0 | PyFloat _ => True end ->
  Forall (fun xw : Z * Z * Z * pynum =>
            0 <= xw.1.1.1 < 2 ^ 32 /\ 0 <= xw.1.1.2 < 2 ^ 32 /\ small_weight xw.2) xs ->
  is_ok (sum_ranked acc xs) = true.
Proof.
  induction xs as [|[[[x0 x1] x2] w] xs IH]; intros acc Hacc Hxs; [done|].
  apply Forall_cons in Hxs as [(Hx0 & Hx1 & Hw) Hxs]. cbn [fst snd] in Hx0, Hx1, Hw.
  cbn [sum_ranked].
  destruct (Z.eqb_spec x1 0) as [->|Hne]; [by apply IH|].
  assert (Hadd : forall t, is_ok (acc' ← py_add acc (PyFloat t); sum_ranked acc' xs) = true).
  { intros t. destruct acc as [a|a]; cbn [py_add mbind result_bind]; [|by apply IH].
    subst a. destruct (float_of_int_small 0) as [f ->]; [done|].
    cbn [mbind result_bind]. by apply IH. }
  destruct w as [y|g]; cbn [py_mul mbind result_bind small_weight] in *.
  - cbn [py_div]. destruct (int_true_divide_small (x0 * y) x1) as [f ->]; [done| |].
    { rewrite Z.abs_mul. apply Z.le_trans with (2 ^ 32 * 2 ^ 32); [|done].
      apply Z.mul_le_mono_nonneg; lia. }
    cbn [mbind result_bind]. apply Hadd.
  - destruct (float_of_int_small x0) as [f0 ->].
    { apply Z.le_trans with (2 ^ 32); [lia|done]. }
    cbn [mbind result_bind py_div].
    destruct (float_of_int_small x1) as [f1 ->].
    { apply Z.le_trans with (2 ^ 32); [lia|done]. }
    cbn [mbind result_bind]. destruct (Z.eqb_spec x1 0) as [|_]; [done|].
    cbn [mbind result_bind]. apply Hadd.
Qed.

(** C1, as the code is written.  On the unpacked matchinfo [stats] (two
    leading values, then one triple per position) and for every weight
    vector, the sum [rank] is written to return is the sum, over the
    positions that have a complete triple and a weight, of
    hits_in_row x weight / hits_total_docs: the denominator is the second
    value of the triple, and a position where it is zero adds nothing.
    Nothing makes the sum raise [ZeroDivisionError]; with 32-bit values
    and float weights or ints of magnitude at most [2^32] it has a value;
    and for [_, _, 5, 10, 2] with weight 1.0 the value is 0.5.  Whether
    [rank] gets as far as the sum is not part of the statement. *)
Theorem rank_sums_hits_over_total_hits weights stats :
  rank_sum weights stats = sum_over_positions hits_total_docs stats weights
  /\ rank_sum weights stats <> Raise ZeroDivisionError
  /\ (Forall small_weight weights -> Forall (fun v => 0 <= v < 2 ^ 32) stats ->
      is_ok (rank_sum weights stats) = true)
  /\ (forall r1 r2, stats = [r1; r2; 5; 10; 2] -> weights = [PyFloat 1.0%float] ->
      rank_sum weights stats = Ok (PyFloat 0.5%float)).
Proof.
  unfold rank_sum.
  split; [apply rank_sum_unpacked|]. split; [apply sum_ranked_no_zero_division|].
  split.
  - intros Hw Hr. apply sum_ranked_small; [done|].
    apply Forall_forall. intros [[[x0 x1] x2] w] Hin.
    apply list_elem_of_lookup in Hin as [j Hj].
    apply lookup_zip_with_Some in Hj as (x' & w' & [= <- <-] & Hx & Hw').
    destruct (zip_it_it_it_Forall _ _ _ _ (Forall_drop _ 2 _ Hr) Hx) as (? & ? & _).
    cbn [fst snd]. split; [done|]. split; [done|].
    eapply Forall_lookup_1; [exact Hw|exact Hw'].
  - intros r1 r2 -> ->. reflexivity.
Qed.

Lemma rank_sums_hits_over_total_hits_witness :
  rank_sum default_weights [1; 1; 5; 10; 2]
  = sum_over_positions hits_total_docs [1; 1; 5; 10; 2] default_weights
  /\ is_ok (rank_sum default_weights [1; 1; 5; 10; 2]) = true
  /\ rank_sum [PyFloat 1.0%float] [1; 1; 5; 10; 2] = Ok (PyFloat 0.5%float).
Proof.
  pose proof (rank_sums_hits_over_total_hits default_weights [1; 1; 5; 10; 2])
    as (H1 & _ & H3 & _).
  pose proof (rank_sums_hits_over_total_hits [PyFloat 1.0%float] [1; 1; 5; 10; 2])
    as (_ & _ & _ & H4).
  split; [exact H1|]. split; [|exact (H4 1 1 eq_refl eq_refl)].
  apply H3; repeat constructor; simpl; lia.
Defined.

(** C1 as the claim has it fails.  With the documents containing the term
    as denominator, [_, _, 5, 10, 2] and weight 1.0 would give 2.5; the
    sum of [rank] gives 0.5 for these values, and [rank] itself, called
    with the blob of these five integers, returns neither: it raises
    [TypeError]. *)
Lemma rank_docs_denominator_counterexample :
  struct_unpack_I LittleEndian blob_5_10_2 = Ok [1; 1; 5; 10; 2]
  /\ sum_over_positions docs_containing_term [1; 1; 5; 10; 2] [PyFloat 1.0%float]
     = Ok (PyFloat 2.5%float)
  /\ rank_sum [PyFloat 1.0%float] [1; 1; 5; 10; 2] = Ok (PyFloat 0.5%float)
  /\ rank_sum [PyFloat 1.0%float] [1; 1; 5; 10; 2] <> Ok (PyFloat 2.5%float)
  /\ make_rank_func LittleEndian [PyFloat 1.0%float] blob_5_10_2 = Raise TypeError.
Proof.
  split; [reflexivity|]. split; [reflexivity|]. split; [reflexivity|].
  split; [|vm_compute; reflexivity].
  intros H.
  apply (f_equal (fun r => match r with
                           | Ok (PyFloat f) => PrimFloat.ltb f 1.0%float
                           | _ => false
                           end)) in H.
  vm_compute in H. discriminate H.
Qed.

(** ** Validation of the search settings *)

Lemma read_columns_dicts (layerconfigs : list pyval) :
  Forall (fun v => is_dict v = true) layerconfigs ->
  read_columns layerconfigs
  = if forallb has_columns layerconfigs then Ok () else Raise KeyError.
Proof.
  induction 1 as [|v vs Hv _ IH]; [done|].
  destruct v as [| | | | |items]; try discriminate Hv.
  cbn [read_columns forallb getitem has_columns].
  destruct (dict_get items "columns") as [cols|] eqn:Hc; cbn [mbind result_bind].
  - rewrite bool_decide_eq_true_2 by by eexists. exact IH.
  - rewrite bool_decide_eq_false_2; [done|]. by intros [? ?].
Qed.

(** C5, as the code has it.  Validation looks for the key only: settings
    without ['search'] are invalid; where ['search'] is a dictionary of
    layer entries that are dictionaries, the settings are valid exactly
    when every entry has the key ['columns'], whatever is under it, and
    otherwise the whole configuration is invalid and what is returned is
    the empty dictionary, whose union of columns is empty. *)
Theorem valid_search_settings_requires_columns_key settings :
  (getitem settings "search" = Raise KeyError ->
   valid_search_settings settings = Ok (false, VDict []))
  /\ (forall layers,
        getitem settings "search" = Ok (VDict layers) ->
        Forall (fun v => is_dict v = true) layers.*2 ->
        (forallb has_columns layers.*2 = true ->
         valid_search_settings settings = Ok (true, VDict layers))
        /\ (forallb has_columns layers.*2 = false ->
            valid_search_settings settings = Ok (false, VDict [])))
  /\ as_indexconfig (VDict []) = Some []
  /\ get_columns [] = ∅
  /\ indexed_field_set [] = ∅.
Proof.
  split; [|split; [|done]].
  - intros Hs. unfold valid_search_settings. by rewrite Hs.
  - intros layers Hs Hd. unfold valid_search_settings. rewrite Hs.
    cbn [mbind result_bind values]. rewrite (read_columns_dicts _ Hd).
    split; intros ->; reflexivity.
Qed.

Lemma valid_search_settings_requires_columns_key_witness :
  valid_search_settings
    (VDict [("search", VDict [("roads", VDict [("columns", VList [VStr "name"])]);
                              ("pipes", VDict [("label", VStr "Pipes")])])])
  = Ok (false, VDict [])
  /\ valid_search_settings (VDict [("title", VStr "Water")]) = Ok (false, VDict []).
Proof.
  split.
  - eapply (valid_search_settings_requires_columns_key
              (VDict [("search", VDict [("roads", VDict [("columns", VList [VStr "name"])]);
                                        ("pipes", VDict [("label", VStr "Pipes")])])]));
      [reflexivity | repeat constructor | reflexivity].
  - apply (valid_search_settings_requires_columns_key (VDict [("title", VStr "Water")])).
    reflexivity.
Defined.

(** C5 as the claim has it fails: an entry whose ['columns'] is the empty
    list is accepted. *)
Lemma empty_columns_accepted_counterexample :
  let layers := [("roads", VDict [("columns", VList [])])] in
  forallb has_nonempty_columns layers.*2 = false
  /\ valid_search_settings (VDict [("search", VDict layers)]) = Ok (true, VDict layers).
Proof. split; reflexivity. Qed.

(** ** Index build *)

(** ** The calls of a build *)

(** A call that SQLite carries out or refuses. *)
Lemma carry_out_app eng done todo evs raised :
  carry_out eng done todo = (evs, raised) ->
  exists k, evs = done ++ take k todo
    /\ (raised = None -> evs = done ++ todo).
Proof.
  revert done. induction todo as [|ev todo IH]; intros done; cbn [carry_out].
  { intros [= <- <-]. exists 0%nat. cbn [take]. by rewrite !app_nil_r. }
  destruct (refusal eng done ev) as [e|].
  - intros [= <- <-]. exists 0%nat. cbn [take]. by rewrite !app_nil_r.
  - intros Hrun. destruct (IH _ Hrun) as (k & Hk & Hnone).
    exists (S k). split.
    + by rewrite Hk, <- app_assoc.
    + intros Hr. by rewrite (Hnone Hr), <- app_assoc.
Qed.

Lemma carry_out_accepting done todo :
  carry_out accepting_engine done todo = (done ++ todo, None).
Proof.
  revert done. induction todo as [|ev todo IH]; intros done; cbn [carry_out].
  { by rewrite app_nil_r. }
  replace (refusal accepting_engine done ev) with (@None pyexn) by by destruct ev.
  by rewrite IH, <- app_assoc.
Qed.

Section IndexBuild.

Variable src : layer_source.

Lemma append_cons a (s t : string) : String a s +:+ t = String a (s +:+ t).
Proof. reflexivity. Qed.

Lemma append_length (s t : string) :
  String.length (s +:+ t) = (String.length s + String.length t)%nat.
Proof.
  induction s as [|a s IH]; [done|].
  rewrite append_cons. simpl. by rewrite IH.
Qed.

Lemma append_inj_l (s1 s2 t : string) : s1 +:+ t = s2 +:+ t -> s1 = s2.
Proof.
  revert s2. induction s1 as [|a s1 IH]; intros [|b s2] H; [done| | |].
  - apply (f_equal String.length) in H.
    rewrite !append_length in H. simpl in H. lia.
  - apply (f_equal String.length) in H.
    rewrite !append_length in H. simpl in H. lia.
  - rewrite !append_cons in H. injection H as -> H. f_equal. by apply IH.
Qed.

(** Quoting loses nothing: two columns with the same quoted name are the
    same column. *)
Lemma quote_column_inj c1 c2 : quote_column c1 = quote_column c2 -> c1 = c2.
Proof.
  unfold quote_column. intros H.
  apply (inj (String.app dquote)) in H. by apply append_inj_l in H.
Qed.

Lemma get_columns_inner (cols : list string) (X : gset string) :
  foldl (fun columns c => columns ∪ {[ quote_column c ]}) X cols
  = X ∪ set_map quote_column (list_to_set cols : gset string).
Proof.
  revert X. induction cols as [|c cols IH]; intros X; simpl.
  - set_solver.
  - rewrite IH. set_solver.
Qed.

Lemma get_columns_outer (cfg : indexconfig) (X : gset string) :
  foldl (fun columns config =>
           foldl (fun columns c => columns ∪ {[ quote_column c ]}) columns config.2)
        X cfg
  = X ∪ set_map quote_column (indexed_field_set cfg).
Proof.
  revert X. induction cfg as [|[sel cols] cfg IH]; intros X;
    unfold indexed_field_set in *; simpl.
  - set_solver.
  - rewrite IH, get_columns_inner. set_solver.
Qed.

(** The keys of a record are the quoted fields the layer and the entry
    share. *)
Lemma render_dom (fields : gset string) (f : feature) :
  dom (render fields f) = set_map quote_column fields.
Proof.
  unfold render.
  apply (set_fold_ind_L (fun (data : gmap string string) (X : gset string) =>
                           dom data = set_map quote_column X)).
  - set_solver.
  - intros x X data _ Hd. rewrite dom_insert_L, Hd. set_solver.
Qed.

Lemma render_nonempty (fields : gset string) (f : feature) :
  fields <> ∅ -> render fields f <> ∅.
Proof.
  intros Hne Hr. apply Hne. pose proof (render_dom fields f) as Hd.
  rewrite Hr, dom_empty_L in Hd. set_solver.
Qed.

Lemma get_data_features_spec name fields features rowid :
  fields <> ∅ ->
  get_data_features name fields features rowid
  = zip_with (fun i f => (i, name, feature_id f, render fields f))
             (seqZ (rowid + 1) (Z.of_nat (length features))) features.
Proof.
  intros Hne. revert rowid.
  induction features as [|f features IH]; intros rowid; [done|].
  cbn [get_data_features]. rewrite decide_False by by apply render_nonempty.
  rewrite seqZ_cons by (simpl; lia). cbn [zip_with]. f_equal.
  rewrite IH. do 2 f_equal; simpl length; lia.
Qed.

(** A layer yields either nothing or one record per feature, numbered
    from the counter on. *)
Lemma get_data_ids l columns rowid :
  record_id <$> get_data l columns rowid
  = seqZ (rowid + 1) (Z.of_nat (length (get_data l columns rowid))).
Proof.
  unfold get_data. case_decide as Hf; [done|].
  rewrite get_data_features_spec by done.
  rewrite length_zip_with, length_seqZ, Nat2Z.id, Nat.min_id.
  generalize (rowid + 1). induction (layer_features l) as [|f fs IH]; intros z; [done|].
  rewrite seqZ_cons by (simpl; lia). cbn [zip_with fmap list_fmap]. f_equal.
  replace (Z.pred (Z.of_nat (length (f :: fs)))) with (Z.of_nat (length fs))
    by (simpl; lia).
  apply IH.
Qed.

Lemma last_count_app rowid rows r :
  last_count rowid (rows ++ [r]) = record_id r.
Proof. unfold last_count. by rewrite foldl_app. Qed.

(** After a loop over consecutively numbered records the counter has
    advanced by their number. *)
Lemma last_count_consecutive rowid rows :
  record_id <$> rows = seqZ (rowid + 1) (Z.of_nat (length rows)) ->
  last_count rowid rows = rowid + Z.of_nat (length rows).
Proof.
  destruct rows as [|r rows _] using rev_ind; [intros _; simpl; lia|].
  intros Hids. rewrite last_count_app.
  rewrite length_app, Nat.add_1_r, fmap_app, seqZ_S in *. simpl in Hids.
  apply app_inj_tail in Hids as [_ ->]. lia.
Qed.

Lemma get_data_enumerates l columns rowid :
  record_source <$> get_data l columns rowid = enumerate_layer l columns.
Proof.
  unfold get_data, enumerate_layer. case_decide as Hf; [done|].
  revert rowid. induction (layer_features l) as [|f fs IH]; intros rowid; [done|].
  cbn [get_data_features]. rewrite decide_False by by apply render_nonempty.
  cbn [fmap list_fmap]. f_equal. apply IH.
Qed.

Lemma consecutive_app (ids1 ids2 : list Z) (rowid : Z) (n1 n2 : nat) :
  ids1 = seqZ (rowid + 1) (Z.of_nat n1) ->
  ids2 = seqZ (rowid + Z.of_nat n1 + 1) (Z.of_nat n2) ->
  ids1 ++ ids2 = seqZ (rowid + 1) (Z.of_nat (n1 + n2)).
Proof.
  intros -> ->. rewrite Nat2Z.inj_add, seqZ_app by lia. do 2 f_equal. lia.
Qed.

Lemma get_features_all_ids layers columns : forall rowid,
  record_id <$> (get_features_all layers columns rowid).1
  = seqZ (rowid + 1) (Z.of_nat (length (get_features_all layers columns rowid).1))
  /\ (get_features_all layers columns rowid).2
     = rowid + Z.of_nat (length (get_features_all layers columns rowid).1).
Proof.
  induction layers as [|l layers IH]; intros rowid.
  { simpl. split; [done|lia]. }
  cbn [get_features_all].
  pose proof (get_data_ids l columns rowid) as Hl.
  rewrite (last_count_consecutive _ _ Hl).
  specialize (IH (rowid + Z.of_nat (length (get_data l columns rowid)))).
  destruct (get_features_all layers columns _) as [more rowid'].
  cbn [fst snd] in *. destruct IH as [IH1 IH2].
  rewrite fmap_app, length_app. split.
  - by apply consecutive_app.
  - rewrite IH2. lia.
Qed.

Lemma get_features_all_enumerates layers columns : forall rowid,
  record_source <$> (get_features_all layers columns rowid).1
  = layers ≫= fun l => enumerate_layer l columns.
Proof.
  induction layers as [|l layers IH]; intros rowid; [done|].
  cbn [get_features_all].
  specialize (IH (last_count rowid (get_data l columns rowid))).
  destruct (get_features_all layers columns _) as [more rowid'].
  cbn [fst snd] in *. rewrite fmap_app, get_data_enumerates, IH. done.
Qed.

(** The records of a whole build are numbered consecutively from the
    counter on, whatever ends the generator. *)
Lemma get_features_from_ids cfg : forall rowid,
  record_id <$> (get_features_from src cfg rowid).1
  = seqZ (rowid + 1) (Z.of_nat (length (get_features_from src cfg rowid).1)).
Proof.
  induction cfg as [|[layername columns] cfg IH]; intros rowid; [done|].
  cbn [get_features_from]. case_decide as Hall.
  - pose proof (get_features_all_ids (vector_layers src) columns rowid) as [Ha1 Ha2].
    destruct (get_features_all (vector_layers src) columns rowid) as [rows rowid'].
    cbn [fst snd] in *. subst rowid'.
    specialize (IH (rowid + Z.of_nat (length rows))).
    destruct (get_features_from src cfg _) as [more raised]. cbn [fst snd] in *.
    rewrite fmap_app, length_app. by apply consecutive_app.
  - destruct (layer_by_name src layername) as [l|e].
    + pose proof (get_data_ids l columns rowid) as Hl.
      rewrite (last_count_consecutive _ _ Hl).
      specialize (IH (rowid + Z.of_nat (length (get_data l columns rowid)))).
      destruct (get_features_from src cfg _) as [more raised]. cbn [fst snd] in *.
      rewrite fmap_app, length_app. by apply consecutive_app.
    + destruct e; try done; apply IH.
Qed.

Lemma get_features_from_enumerates cfg : forall rowid,
  (get_features_from src cfg rowid).2 = None ->
  record_source <$> (get_features_from src cfg rowid).1
  = cfg ≫= enumerate_entry src.
Proof.
  induction cfg as [|[layername columns] cfg IH]; intros rowid; [done|].
  cbn [get_features_from mbind list_bind]. unfold enumerate_entry at 1. cbn [fst snd].
  case_decide as Hall.
  - pose proof (get_features_all_enumerates (vector_layers src) columns rowid) as Ha.
    destruct (get_features_all (vector_layers src) columns rowid) as [rows rowid'].
    specialize (IH rowid').
    destruct (get_features_from src cfg rowid') as [more raised]. cbn [fst snd] in *.
    intros Hr. by rewrite fmap_app, Ha, IH.
  - destruct (layer_by_name src layername) as [l|e].
    + specialize (IH (last_count rowid (get_data l columns rowid))).
      destruct (get_features_from src cfg _) as [more raised]. cbn [fst snd] in *.
      intros Hr. by rewrite fmap_app, get_data_enumerates, IH.
    + destruct e; try done. apply IH.
Qed.

Lemma get_features_from_layer cfg : forall rowid r,
  r ∈ (get_features_from src cfg rowid).1 ->
  exists entry l rowid',
    entry ∈ cfg /\ layer_of_entry src entry l /\ r ∈ get_data l entry.2 rowid'.
Proof.
  induction cfg as [|[layername columns] cfg IH]; intros rowid r.
  { cbn [get_features_from fst]. by intros ?%elem_of_nil. }
  assert (Hrest : forall rowid', r ∈ (get_features_from src cfg rowid').1 ->
            exists entry l rowid'',
              entry ∈ (layername, columns) :: cfg /\ layer_of_entry src entry l
              /\ r ∈ get_data l entry.2 rowid'').
  { intros rowid' Hr. destruct (IH _ _ Hr) as (entry & l & rowid'' & He & Hl & Hd).
    exists entry, l, rowid''. split; [by right|done]. }
  cbn [get_features_from]. case_decide as Hall.
  - assert (Hall' : forall layers rowid r,
              r ∈ (get_features_all layers columns rowid).1 ->
              exists l rowid', l ∈ layers /\ r ∈ get_data l columns rowid').
    { clear. induction layers as [|l layers IHl]; intros rowid r; cbn [get_features_all].
      { cbn [fst]. by intros ?%elem_of_nil. }
      specialize (IHl (last_count rowid (get_data l columns rowid)) r).
      destruct (get_features_all layers columns _) as [more rowid']. cbn [fst] in *.
      intros [Hr|Hr]%elem_of_app.
      - exists l, rowid. split; [left|done].
      - destruct (IHl Hr) as (l' & rowid'' & Hl' & Hd).
        exists l', rowid''. split; [by right|done]. }
    specialize (Hall' (vector_layers src) rowid r).
    destruct (get_features_all (vector_layers src) columns rowid) as [rows rowid'].
    specialize (Hrest rowid').
    destruct (get_features_from src cfg rowid') as [more raised]. cbn [fst] in *.
    intros [Hr|Hr]%elem_of_app; [|by apply Hrest].
    destruct (Hall' Hr) as (l & rowid'' & Hl & Hd).
    exists (layername, columns), l, rowid''. split; [left|]. split; [|done].
    unfold layer_of_entry. cbn [fst]. by rewrite decide_True.
  - destruct (layer_by_name src layername) as [l|e] eqn:Hlookup.
    + specialize (Hrest (last_count rowid (get_data l columns rowid))).
      destruct (get_features_from src cfg _) as [more raised]. cbn [fst] in *.
      intros [Hr|Hr]%elem_of_app; [|by apply Hrest].
      exists (layername, columns), l, rowid. split; [left|]. split; [|done].
      unfold layer_of_entry. cbn [fst]. by rewrite decide_False.
    + destruct e; cbn [fst]; try (by intros ?%elem_of_nil); apply Hrest.
Qed.

Lemma get_features_from_origin cfg rowid r :
  r ∈ (get_features_from src cfg rowid).1 ->
  exists entry l rowid', entry ∈ cfg /\ r ∈ get_data l entry.2 rowid'.
Proof.
  intros Hr. destruct (get_features_from_layer _ _ _ Hr) as (entry & l & rowid' & ? & _ & ?).
  by exists entry, l, rowid'.
Qed.

Lemma get_data_keys l columns rowid r :
  r ∈ get_data l columns rowid ->
  dom (record_data r)
  = set_map quote_column (list_to_set (layer_fields l) ∩ list_to_set columns : gset string).
Proof.
  unfold get_data. case_decide as Hf; [by intros ?%elem_of_nil|].
  revert rowid. induction (layer_features l) as [|f fs IH]; intros rowid.
  { by intros ?%elem_of_nil. }
  cbn [get_data_features]. rewrite decide_False by by apply render_nonempty.
  intros [->|Hr]%elem_of_cons; [apply render_dom|by eapply IH].
Qed.

(** C6.  The ids of the records one build yields are 1, 2, 3, ... in the
    order of emission, across all entries and layers: strictly increasing,
    without repetition, and, when the generator ends normally, the
    records are those of the (layer, feature) pairs in enumeration
    order. *)
Theorem synthetic_ids_strictly_increasing cfg :
  record_id <$> (get_features src cfg).1
  = seqZ 1 (Z.of_nat (length (get_features src cfg).1))
  /\ (forall i j r r', (i < j)%nat ->
        (get_features src cfg).1 !! i = Some r ->
        (get_features src cfg).1 !! j = Some r' ->
        record_id r < record_id r')
  /\ NoDup (record_id <$> (get_features src cfg).1)
  /\ ((get_features src cfg).2 = None ->
      record_source <$> (get_features src cfg).1 = cfg ≫= enumerate_entry src).
Proof.
  pose proof (get_features_from_ids cfg 0) as Hids.
  fold (get_features src cfg) in Hids. change (0 + 1) with 1 in Hids.
  split; [exact Hids|]. split; [|split].
  - intros i j r r' Hij Hi Hj.
    apply (f_equal (fmap record_id)) in Hi, Hj.
    rewrite <- list_lookup_fmap, Hids in Hi, Hj. simpl in Hi, Hj.
    apply lookup_seqZ in Hi as [-> _], Hj as [-> _]. lia.
  - rewrite Hids. apply NoDup_seqZ.
  - apply get_features_from_enumerates.
Qed.

(** C7, where it holds and where the code breaks it.  The arguments the
    build gives to [fts4(...)] are the quoted names of the union of the
    configured columns, one for each name of the union and no other.  The
    table a build leaves has the columns FTS4 makes of them, and there is
    no table when FTS4 refuses them.  A record has a value only for the
    columns its layer and its entry share, so none for a column the layer
    lacks, and all its columns are among the arguments.  But FTS4 does
    not take every such list for the columns of a table: for [name] and
    [Name] in one configuration the build raises and leaves no table, and
    for a configuration without a column the table has the column
    [content]. *)
Theorem fts_columns_are_configured_union eng cfg dbpath :
  get_columns cfg = set_map quote_column (indexed_field_set cfg)
  /\ (forall c, quote_column c ∈ get_columns cfg <-> c ∈ indexed_field_set cfg)
  /\ (forall db, build_index_on eng src cfg dbpath = Ok db ->
        exists columns rows,
          fts4_declare eng (elements (get_columns cfg)) = Ok columns
          /\ search_table db = Some (list_to_set columns, rows))
  /\ (forall e, fts4_declare eng (elements (get_columns cfg)) = Raise e ->
        is_ok (build_index_on eng src cfg dbpath) = false)
  /\ (forall l columns rowid r c,
        r ∈ get_data l columns rowid -> c ∉ layer_fields l ->
        record_data r !! quote_column c = None)
  /\ (forall r, r ∈ (get_features src cfg).1 -> dom (record_data r) ⊆ get_columns cfg)
  /\ build_index_on demo_build_engine demo_source
       [("hydrants", ["name"; "Name"])] "index.db" = Raise OperationalError
  /\ (indexed_field_set [("hydrants", [])] = ∅
      /\ exists db rows,
           build_index_on demo_build_engine demo_source [("hydrants", [])] "index.db"
           = Ok db
           /\ search_table db = Some ({[ quote_column "content" ]}, rows)).
Proof.
  assert (Hc : get_columns cfg = set_map quote_column (indexed_field_set cfg)).
  { unfold get_columns. rewrite get_columns_outer. set_solver. }
  split; [exact Hc|]. split; [|split; [|split; [|split; [|split; [|split]]]]].
  - intros c. rewrite Hc, elem_of_map. split; [|by eauto].
    by intros (c' & ->%quote_column_inj & Hc').
  - intros db. unfold build_index_on.
    destruct (build_index_events eng src cfg dbpath) as [evs [e|]]; [done|].
    destruct (fts4_declare eng _) as [columns|e]; [|done].
    cbn [mbind result_bind]. intros [= <-]. by eexists _, _.
  - intros e He. unfold build_index_on.
    destruct (build_index_events eng src cfg dbpath) as [evs [e'|]]; [done|].
    by rewrite He.
  - intros l columns rowid r c Hr Hc'. apply not_elem_of_dom.
    rewrite (get_data_keys _ _ _ _ Hr), elem_of_map.
    intros (c' & ->%quote_column_inj & Hin). set_solver.
  - intros r Hr.
    destruct (get_features_from_origin _ _ _ Hr) as ([sel columns] & l & rowid & He & Hl).
    rewrite (get_data_keys _ _ _ _ Hl), Hc. cbn [snd].
    apply set_map_mono; [done|]. unfold indexed_field_set.
    intros c [_ Hcin]%elem_of_intersection. apply elem_of_union_list.
    exists (list_to_set columns). split; [|done].
    apply list_elem_of_fmap. by exists (sel, columns).
  - vm_compute. reflexivity.
  - split; [vm_compute; reflexivity|]. eexists _, _.
    split; vm_compute; reflexivity.
Qed.

Lemma get_features_from_skip before name columns after : forall rowid,
  name <> "_all" -> layer_by_name src name = Raise IndexError ->
  get_features_from src (before ++ (name, columns) :: after) rowid
  = get_features_from src (before ++ after) rowid.
Proof.
  intros rowid Hname Hmiss. revert rowid.
  induction before as [|[layername columns'] before IH]; intros rowid.
  - cbn [app get_features_from]. rewrite decide_False by done. by rewrite Hmiss.
  - cbn [app get_features_from]. case_decide.
    + destruct (get_features_all _ _ _) as [rows rowid']. by rewrite IH.
    + destruct (layer_by_name src layername) as [l|e]; [by rewrite IH|].
      destruct e; done.
Qed.

(** C9.  An entry whose name the registry does not know (the lookup
    raises [IndexError]) is skipped: the generator yields what it yields
    without the entry, records, ids and ending alike, and the entry alone
    yields nothing and raises nothing. *)
Theorem unresolved_layer_is_skipped before name columns after :
  name <> "_all" -> layer_by_name src name = Raise IndexError ->
  get_features src (before ++ (name, columns) :: after)
  = get_features src (before ++ after)
  /\ get_features src [(name, columns)] = ([], None).
Proof.
  intros Hname Hmiss. split.
  - by apply get_features_from_skip.
  - apply (get_features_from_skip [] name columns [] 0 Hname Hmiss).
Qed.

End IndexBuild.

(** ** The search panel *)

Lemma add_hits_run query : forall p,
  add_hits query p
  = (Ok (), with_view p (resultsView p ++ (item_of_hit <$> query))
                      (resultsView_enabled p) []).
Proof.
  induction query as [|[[layer featureid] snippet] query IH]; intros p.
  - unfold with_view. simpl. rewrite !app_nil_r. by destruct p.
  - cbn [add_hits]. unfold mbind, action_bind, resultsView_addItem.
    rewrite IH. unfold with_view. simpl. by rewrite !app_nil_r, <- app_assoc.
Qed.

(** What [db] does: nothing but raising when there is no path or no
    connection, two events in the log otherwise. *)
Lemma db_run eng p :
  db eng p
  = match dbpath p with
    | None => (Raise TypeError, p)
    | Some path =>
        match sqlite_connect eng path with
        | Raise e => (Raise e, p)
        | Ok conn =>
            (Ok conn,
             with_view p (resultsView p) (resultsView_enabled p)
                       [DbConnect path; DbCreateFunction "rank" 1 default_weights])
        end
    end.
Proof.
  unfold db, mbind, action_bind, get_dbpath, lift, log.
  destruct (dbpath p) as [path|] eqn:Hp; [|done].
  destruct (sqlite_connect eng path) as [conn|e]; [|done].
  unfold with_view. simpl. by rewrite <- app_assoc.
Qed.

Ltac panel_eq :=
  unfold with_view, opening_events;
  cbn [dbpath fuzzyCheck resultsView resultsView_enabled db_log];
  rewrite <- ?app_assoc, ?app_nil_r; cbn [app]; reflexivity.

(** One equation for the whole of [search]. *)
Lemma search_run eng (text : pystr) p :
  search eng text p
  = match dbpath p with
    | None => (Raise TypeError, p)
    | Some path =>
        match sqlite_connect eng path with
        | Raise e => (Raise e, p)
        | Ok conn =>
            if decide (text = "") then
              (Ok (), with_view p [] false (opening_events path))
            else
              let sql := select_statement (match_expression (fuzzyCheck p) text) in
              match execute eng conn sql with
              | Raise e =>
                  (Raise e, with_view p [] false (opening_events path ++ [DbExecute sql]))
              | Ok query =>
                  (Ok (), with_view p (view_of_hits query).1 (view_of_hits query).2
                                    (opening_events path ++ [DbExecute sql; DbClose]))
              end
        end
    end.
Proof.
  unfold search. unfold mbind at 1, action_bind at 1. rewrite db_run.
  destruct (dbpath p) as [path|] eqn:Hp; [|done].
  destruct (sqlite_connect eng path) as [conn|e]; [|done].
  unfold mbind, action_bind, log, resultsView_clear, resultsView_setEnabled,
    fuzzyCheck_isChecked, lift, resultsView_count, resultsView_addItem, mret, action_ret.
  cbn [with_view dbpath fuzzyCheck resultsView resultsView_enabled db_log].
  case_decide as Ht; [panel_eq|].
  cbv zeta.
  destruct (execute eng conn _) as [query|e]; [|panel_eq].
  rewrite add_hits_run.
  cbn [with_view dbpath fuzzyCheck resultsView resultsView_enabled db_log app].
  destruct query as [|h query]; cbn [fmap list_fmap length view_of_hits fst snd].
  - rewrite decide_True by done. panel_eq.
  - rewrite decide_False by done. panel_eq.
Qed.

(** *** Splitting and joining *)

Lemma py_split_cons_token a b s :
  is_space a = false -> is_space b = false ->
  py_split (a :: b :: s)
  = match py_split (b :: s) with
    | t :: ts => (a :: t) :: ts
    | [] => [[a]]
    end.
Proof. intros Ha Hb. cbn [py_split]. by rewrite Ha, Hb. Qed.

(** The first token of a text that starts with one. *)
Lemma py_split_token_then_space t c s :
  is_token t -> is_space c = true ->
  py_split (t ++ c :: s) = t :: py_split s.
Proof.
  intros [Hne Hsp] Hc. induction t as [|a t IH]; [done|]. clear Hne.
  cbn [has_space existsb] in Hsp. apply orb_false_iff in Hsp as [Ha Ht].
  destruct t as [|b t].
  - cbn [app py_split]. by rewrite Ha, Hc.
  - assert (Hb : is_space b = false).
    { cbn [existsb] in Ht. by apply orb_false_iff in Ht as [? _]. }
    specialize (IH ltac:(done) Ht).
    change ((a :: b :: t) ++ c :: s) with (a :: b :: (t ++ c :: s)).
    rewrite (py_split_cons_token a b _ Ha Hb).
    change (b :: (t ++ c :: s)) with ((b :: t) ++ c :: s). by rewrite IH.
Qed.

Lemma py_split_token t : is_token t -> py_split t = [t].
Proof.
  intros [Hne Hsp]. induction t as [|a t IH]; [done|]. clear Hne.
  cbn [has_space existsb] in Hsp. apply orb_false_iff in Hsp as [Ha Ht].
  destruct t as [|b t]; [cbn [py_split]; by rewrite Ha|].
  assert (Hb : is_space b = false).
  { cbn [existsb] in Ht. by apply orb_false_iff in Ht as [? _]. }
  rewrite (py_split_cons_token a b _ Ha Hb). by rewrite (IH ltac:(done) Ht).
Qed.

(** What [split] returns are tokens. *)
Lemma py_split_tokens s : Forall is_token (py_split s).
Proof.
  assert (Hone : forall a, is_space a = false -> is_token [a]).
  { intros a Ha. split; [done|]. unfold has_space. cbn [existsb]. by rewrite Ha. }
  induction s as [|a s IH]; [constructor|].
  cbn [py_split]. destruct (is_space a) eqn:Ha; [exact IH|].
  destruct s as [|b s]; [constructor; [by apply Hone|constructor]|].
  destruct (is_space b) eqn:Hb.
  - constructor; [by apply Hone|exact IH].
  - destruct (py_split (b :: s)) as [|t ts].
    + constructor; [by apply Hone|constructor].
    + apply Forall_cons in IH as [[Hne Hsp] Hts]. constructor; [|done].
      split; [done|]. unfold has_space in *. cbn [existsb]. by rewrite Ha, Hsp.
Qed.

(** Joining tokens with a blank and splitting again gives the tokens. *)
Lemma py_split_join toks :
  Forall is_token toks -> py_split (text_join " " toks) = toks.
Proof.
  induction 1 as [|t toks Ht Htoks IH]; [done|].
  destruct toks as [|t' toks]; [by apply py_split_token|].
  change (text_join " " (t :: t' :: toks))
    with (t ++ 32%N :: text_join " " (t' :: toks)).
  rewrite py_split_token_then_space by done. by rewrite IH.
Qed.

Lemma has_space_app s t : has_space (s ++ t) = has_space s || has_space t.
Proof. apply existsb_app. Qed.

Lemma prefix_term_token t : is_token t -> is_token (prefix_term t).
Proof.
  intros [Hne Hsp]. unfold prefix_term. split.
  - by destruct t.
  - by rewrite has_space_app, Hsp.
Qed.

(** The expression of a fuzzy search is the prefix terms of the tokens,
    one blank between them. *)
Lemma fuzzy_join toks :
  toks <> [] ->
  text_join "* " toks ++ code_points "*" = text_join " " (prefix_term <$> toks).
Proof.
  intros Hne. induction toks as [|t toks IH]; [done|]. clear Hne.
  destruct toks as [|t' toks]; [done|].
  change (text_join "* " (t :: t' :: toks))
    with (t ++ code_points "* " ++ text_join "* " (t' :: toks)).
  change (text_join " " (prefix_term <$> t :: t' :: toks))
    with (prefix_term t ++ code_points " "
          ++ text_join " " (prefix_term <$> t' :: toks)).
  rewrite <- (IH ltac:(done)). unfold prefix_term.
  by rewrite <- !app_assoc.
Qed.

(** A text without tokens is a text of whitespace only, and conversely. *)
Lemma py_split_nil s : py_split s = [] <-> all_space s = true.
Proof.
  induction s as [|a s IH]; [done|].
  unfold all_space in *. cbn [py_split forallb]. destruct (is_space a); [exact IH|].
  split; [|done]. destruct s as [|b s]; [done|].
  destruct (is_space b); [done|]. by destruct (py_split (b :: s)).
Qed.

(** The whitespace of [split] is that of Python 3: besides the six ASCII
    blanks, the four separators below the space, NEL, the no-break space
    and the spaces of the general punctuation block. *)
Example py_split_example :
  py_split "  main   str " = [code_points "main"; code_points "str"]
  /\ py_split [0x61; 0x3000; 0x62; 0xa0; 0x1f; 0x63]%N = [[0x61]; [0x62]; [0x63]]%N
  /\ all_space [0x1f; 0xa0; 0x3000; 0x85; 0x2028]%N = true.
Proof. repeat split. Qed.

(** *** The statement and its match expression *)

Lemma strip_prefix_app p s : strip_prefix p (p ++ s) = Some s.
Proof.
  induction p as [|a p IH]; [by destruct s|].
  cbn [app strip_prefix]. by rewrite N.eqb_refl.
Qed.

Lemma strip_suffix_unfold suffix s :
  strip_suffix suffix s
  = if bool_decide (s = suffix) then Some []
    else match s with
         | [] => None
         | a :: rest => cons a <$> strip_suffix suffix rest
         end.
Proof. by destruct s. Qed.

Lemma strip_suffix_app suffix s : strip_suffix suffix (s ++ suffix) = Some s.
Proof.
  induction s as [|a s IH]; rewrite strip_suffix_unfold.
  - cbn [app]. by rewrite bool_decide_true.
  - rewrite bool_decide_false.
    + cbn [app]. by rewrite IH.
    + intros Heq. apply (f_equal length) in Heq. rewrite length_app in Heq.
      simpl in Heq. lia.
Qed.

(** The engine reads back the expression [search] put into the statement,
    as long as the expression has no quote. *)
Lemma match_expression_of_select expr :
  match_expression_of (select_statement expr)
  = if has_char single_quote expr then None else Some expr.
Proof.
  unfold match_expression_of, select_statement.
  rewrite strip_prefix_app. cbn [mbind option_bind].
  rewrite strip_suffix_app. done.
Qed.

Lemma execute_select eng conn expr :
  has_char single_quote expr = false ->
  execute eng conn (select_statement expr) = select_hits eng conn expr.
Proof.
  intros Hq. unfold execute. by rewrite match_expression_of_select, Hq.
Qed.

Lemma select_hits_limit eng conn expr query :
  select_hits eng conn expr = Ok query -> (length query <= 100)%nat.
Proof.
  unfold select_hits.
  destruct (search_table conn) as [[cols rows]|]; [|done].
  destruct (featureinfo conn) as [infos|]; [|done].
  destruct (fts_match eng expr) as [matches|]; [|done].
  intros [= <-]. rewrite length_take. lia.
Qed.

Lemma has_char_app c s t : has_char c (s ++ t) = has_char c s || has_char c t.
Proof. apply existsb_app. Qed.

Lemma py_split_has_char c s :
  has_char c s = false -> Forall (fun t => has_char c t = false) (py_split s).
Proof.
  unfold has_char. induction s as [|a s IH]; [constructor|].
  cbn [existsb]. intros [Ha Hs]%orb_false_iff. specialize (IH Hs).
  cbn [py_split]. destruct (is_space a); [exact IH|].
  destruct s as [|b s]; [by repeat constructor; cbn; rewrite Ha|].
  destruct (is_space b).
  - constructor; [by cbn; rewrite Ha|exact IH].
  - destruct (py_split (b :: s)) as [|t ts].
    + repeat constructor. cbn. by rewrite Ha.
    + apply Forall_cons in IH as [Ht Hts]. constructor; [|done].
      cbn [existsb]. by rewrite Ha, Ht.
Qed.

Lemma text_join_has_char c sep toks :
  has_char c sep = false -> Forall (fun t => has_char c t = false) toks ->
  has_char c (text_join sep toks) = false.
Proof.
  intros Hsep. induction 1 as [|t toks Ht Htoks IH]; [done|].
  destruct toks as [|t' toks]; [done|].
  change (text_join sep (t :: t' :: toks)) with (t ++ sep ++ text_join sep (t' :: toks)).
  by rewrite !has_char_app, Ht, Hsep, IH.
Qed.

(** A text without a quote gives an expression without a quote. *)
Lemma match_expression_no_quote fuzzy (text : pystr) :
  has_char single_quote text = false ->
  has_char single_quote (match_expression fuzzy text) = false.
Proof.
  intros Hq. destruct fuzzy; [|done]. unfold match_expression.
  rewrite has_char_app, text_join_has_char; [done|done|].
  by apply py_split_has_char.
Qed.

Lemma shown_rows_view_of_hits p query enabled evs :
  shown_rows (with_view p (view_of_hits query).1 enabled evs) = query.
Proof.
  unfold shown_rows. cbn [with_view resultsView].
  destruct query as [|h query]; [done|]. cbn [view_of_hits fst].
  generalize (h :: query). intros l. induction l as [|h' l IH]; [done|].
  cbn. by rewrite IH.
Qed.

(** The rows a search that returns shows for a text without a single
    quote are at most 100: the statement then ends in [LIMIT 100].  A
    text with a quote ends the string literal of the statement before
    that, and nothing is said of it here. *)
Theorem search_shows_at_most_100_rows eng (text : pystr) p :
  has_char single_quote text = false -> (search eng text p).1 = Ok () ->
  (length (shown_rows (search eng text p).2) <= 100)%nat.
Proof.
  intros Hq. rewrite search_run.
  destruct (dbpath p) as [path|]; [|done].
  destruct (sqlite_connect eng path) as [conn|e]; [|done].
  case_decide as Ht; [intros _; cbn; lia|]. cbv zeta.
  rewrite execute_select by by apply match_expression_no_quote.
  destruct (select_hits eng conn _) as [query|e] eqn:Hs; [|done].
  intros _. cbn [snd]. rewrite shown_rows_view_of_hits.
  by eapply select_hits_limit.
Qed.

(** ** The claims about the index build, on the small project *)

Lemma unresolved_layer_is_skipped_witness :
  get_features demo_source demo_config
  = get_features demo_source [("hydrants", ["name"])]
  /\ get_features demo_source [("mains", ["name"])] = ([], None).
Proof.
  apply (unresolved_layer_is_skipped demo_source [] "mains" ["name"]
           [("hydrants", ["name"])]); [done|reflexivity].
Defined.

Lemma synthetic_ids_strictly_increasing_witness :
  record_id <$> (get_features demo_source demo_config).1
  = seqZ 1 (Z.of_nat (length (get_features demo_source demo_config).1))
  /\ NoDup (record_id <$> (get_features demo_source demo_config).1)
  /\ record_source <$> (get_features demo_source demo_config).1
     = demo_config ≫= enumerate_entry demo_source.
Proof.
  destruct (synthetic_ids_strictly_increasing demo_source demo_config)
    as (H1 & _ & H3 & H4).
  split; [exact H1|]. split; [exact H3|].
  apply H4. vm_compute. reflexivity.
Defined.

Lemma fts_columns_are_configured_union_witness :
  get_columns demo_config = set_map quote_column (indexed_field_set demo_config)
  /\ exists conn columns rows,
       build_index_on demo_build_engine demo_source demo_config "index.db" = Ok conn
       /\ fts4_declare demo_build_engine (elements (get_columns demo_config)) = Ok columns
       /\ search_table conn = Some (list_to_set columns, rows).
Proof.
  destruct (fts_columns_are_configured_union demo_source demo_build_engine
              demo_config "index.db") as (H1 & _ & H3 & _).
  split; [exact H1|].
  assert (Hdb : exists conn,
            build_index_on demo_build_engine demo_source demo_config "index.db" = Ok conn)
    by (vm_compute; eauto).
  destruct Hdb as [conn Hdb]. destruct (H3 conn Hdb) as (columns & rows & Hd & Hrows).
  exists conn, columns, rows. split; [exact Hdb|]. split; [exact Hd|exact Hrows].
Defined.

(** ** The claims about the query *)

Lemma py_split_keeps_char c s :
  is_space c = false -> has_char c s = true ->
  Exists (fun t => has_char c t = true) (py_split s).
Proof.
  intros Hc. unfold has_char. induction s as [|a s IH]; [done|].
  cbn [existsb py_split]. intros Hs.
  destruct (N.eqb_spec c a) as [<-|Hne].
  - rewrite Hc. destruct s as [|b s]; [by left; cbn; rewrite N.eqb_refl|].
    destruct (is_space b); [by left; cbn; rewrite N.eqb_refl|].
    destruct (py_split (b :: s)); left; cbn; by rewrite N.eqb_refl.
  - cbn [orb] in Hs. specialize (IH Hs).
    destruct (is_space a); [exact IH|].
    destruct s as [|b s]; [done|].
    destruct (is_space b); [by right|].
    destruct (py_split (b :: s)) as [|t ts]; [by apply Exists_nil in IH|].
    apply Exists_cons in IH as [Ht|Hts]; [left|by right].
    cbn [existsb]. by rewrite Ht, orb_true_r.
Qed.

Lemma text_join_keeps_char c sep toks :
  Exists (fun t => has_char c t = true) toks ->
  has_char c (text_join sep toks) = true.
Proof.
  induction toks as [|t toks IH]; [by intros ?%Exists_nil|].
  intros Hex. destruct toks as [|t' toks].
  { by apply Exists_cons in Hex as [?|?%Exists_nil]. }
  change (text_join sep (t :: t' :: toks)) with (t ++ sep ++ text_join sep (t' :: toks)).
  rewrite !has_char_app. apply Exists_cons in Hex as [->|Hex]; [done|].
  by rewrite (IH Hex), !orb_true_r.
Qed.

(** A quote in the text is a quote in the expression. *)
Lemma match_expression_keeps_quote fuzzy (text : pystr) :
  has_char single_quote text = true ->
  has_char single_quote (match_expression fuzzy text) = true.
Proof.
  intros Hq. destruct fuzzy; [|done]. unfold match_expression.
  rewrite has_char_app, text_join_keeps_char; [done|].
  by apply py_split_keeps_char.
Qed.

(** C8, where it holds and where the code breaks it.  Without the fuzzy
    option the text is the match expression.  With the option, a text
    with tokens becomes its tokens, each followed by a star, one blank
    between them: read again as blank-separated terms, which FTS4 takes
    conjunctively, the expression is exactly one prefix term per token;
    ["main str"] becomes ["main* str*"].  The statement carries the
    expression to the engine when the text has no single quote.  A text
    with one ends the string literal of the statement early: what is
    executed is not the select with the expression of the text, and for
    [O'Brien] the search raises the syntax error of SQLite. *)
Theorem fuzzy_expression_prefixes_every_token (text : pystr) :
  match_expression false text = text
  /\ (py_split text <> [] ->
      match_expression true text = text_join " " (prefix_term <$> py_split text)
      /\ py_split (match_expression true text) = prefix_term <$> py_split text)
  /\ (forall eng conn fuzzy, has_char single_quote text = false ->
      execute eng conn (select_statement (match_expression fuzzy text))
      = select_hits eng conn (match_expression fuzzy text))
  /\ (forall eng conn fuzzy, has_char single_quote text = true ->
      match_expression_of (select_statement (match_expression fuzzy text)) = None
      /\ execute eng conn (select_statement (match_expression fuzzy text))
         = other_statement eng conn (select_statement (match_expression fuzzy text)))
  /\ match_expression true "main str" = "main* str*"
  /\ py_split (match_expression true "main str")
     = [code_points "main*"; code_points "str*"]
  /\ (search (demo_engine demo_database) "O'Brien" (demo_panel false)).1
     = Raise OperationalError.
Proof.
  split; [done|]. split; [|split; [|split; [|split; [done|split; [done|]]]]].
  - intros Hne. unfold match_expression. rewrite fuzzy_join by done.
    split; [done|]. apply py_split_join.
    apply Forall_fmap. eapply Forall_impl; [apply py_split_tokens|].
    intros t Ht. by apply prefix_term_token.
  - intros eng conn fuzzy Hq. apply execute_select.
    by apply match_expression_no_quote.
  - intros eng conn fuzzy Hq. unfold execute.
    rewrite match_expression_of_select, match_expression_keeps_quote by done.
    done.
  - vm_compute. reflexivity.
Qed.

Lemma fuzzy_expression_prefixes_every_token_witness :
  match_expression true "  water   main " = "water* main*"
  /\ py_split (match_expression true "  water   main ")
     = [code_points "water*"; code_points "main*"]
  /\ match_expression_of (select_statement (match_expression false "O'Brien")) = None.
Proof.
  destruct (fuzzy_expression_prefixes_every_token "  water   main ")
    as (_ & H & _).
  destruct (H ltac:(discriminate)) as [H1 H2].
  destruct (fuzzy_expression_prefixes_every_token "O'Brien")
    as (_ & _ & _ & H4 & _).
  destruct (H4 (demo_engine demo_database) dropped_database false eq_refl) as [H5 _].
  split; [exact H1|]. split; [exact H2|exact H5].
Defined.

(** C10, as the code has it.  A text that is not empty but all
    whitespace, with the fuzzy option on and a connection that opens: the
    early return is not taken, the expression is the bare star, the select
    with it is executed, and the panel shows what the engine returns for
    it: its rows, at most 100, or the item [No Results] in a disabled
    view when it returns none; what the engine raises is raised. *)
Theorem whitespace_fuzzy_query_is_executed eng p (text : pystr) path conn :
  text <> "" -> all_space text = true -> fuzzyCheck p = true ->
  dbpath p = Some path -> sqlite_connect eng path = Ok conn ->
  match_expression true text = "*"
  /\ DbExecute (select_statement "*") ∈ db_log (search eng text p).2
  /\ execute eng conn (select_statement "*") = select_hits eng conn "*"
  /\ (forall query, select_hits eng conn "*" = Ok query ->
        (search eng text p).1 = Ok ()
        /\ shown_rows (search eng text p).2 = query
        /\ (length query <= 100)%nat)
  /\ (select_hits eng conn "*" = Ok [] ->
        resultsView (search eng text p).2
        = [ {| item_text := "No Results"; item_data := None |} ]
        /\ resultsView_enabled (search eng text p).2 = false)
  /\ (forall e, select_hits eng conn "*" = Raise e ->
        (search eng text p).1 = Raise e).
Proof.
  intros Hne Hsp Hfuzzy Hpath Hconn.
  assert (Hexpr : match_expression true text = "*").
  { unfold match_expression. by rewrite (proj2 (py_split_nil text) Hsp). }
  assert (Hexec : execute eng conn (select_statement "*") = select_hits eng conn "*")
    by by apply execute_select.
  rewrite search_run, Hpath, Hconn, decide_False by done.
  rewrite Hfuzzy, Hexpr. cbv zeta. rewrite Hexec.
  split; [done|]. split; [|split; [done|split; [|split]]].
  - destruct (select_hits eng conn "*") as [query|e]; cbn [snd with_view db_log];
      rewrite !elem_of_app; right; set_solver.
  - intros query Hq. rewrite Hq. cbn [fst snd].
    rewrite shown_rows_view_of_hits. split; [done|]. split; [done|].
    by eapply select_hits_limit.
  - intros Hq. by rewrite Hq.
  - intros e He. by rewrite He.
Qed.

Lemma whitespace_fuzzy_query_is_executed_witness :
  match_expression true [0x20; 0xa0; 0x3000]%N = "*"
  /\ DbExecute (select_statement "*")
     ∈ db_log (search (demo_engine demo_database) [0x20; 0xa0; 0x3000]%N
                 (demo_panel true)).2
  /\ (search (demo_engine demo_database) [0x20; 0xa0; 0x3000]%N (demo_panel true)).1
     = Ok ().
Proof.
  assert (Hdb : exists conn, demo_database = Ok conn) by (vm_compute; eauto).
  destruct Hdb as [conn Hdb].
  destruct (whitespace_fuzzy_query_is_executed (demo_engine demo_database)
              (demo_panel true) [0x20; 0xa0; 0x3000]%N "index.db" conn
              ltac:(discriminate) eq_refl eq_refl eq_refl Hdb)
    as (H1 & H2 & _ & _ & _).
  split; [exact H1|]. split; [exact H2|]. vm_compute. reflexivity.
Defined.

(** C10 as the claim has it fails: the query for the bare star is
    executed, but on the index of the small project, as on any index,
    FTS4 selects no row for it: the result set is empty and the panel
    shows [No Results]. *)
Lemma whitespace_fuzzy_query_shows_no_row_counterexample :
  all_space "   " = true
  /\ db_log (search (demo_engine demo_database) "   " (demo_panel true)).2
     = [DbConnect "index.db"; DbCreateFunction "rank" 1 default_weights; DbCursor;
        DbExecute (select_statement "*"); DbClose]
  /\ shown_rows (search (demo_engine demo_database) "   " (demo_panel true)).2 = []
  /\ resultsView (search (demo_engine demo_database) "   " (demo_panel true)).2
     = [ {| item_text := "No Results"; item_data := None |} ].
Proof. repeat split; vm_compute; reflexivity. Qed.

(** C4, as the code has it.  For the empty text, when the connection
    opens, [search] returns without a query: the view is emptied and
    disabled, no row is shown and nothing is executed; but the connection
    is opened, with [rank] registered, and a cursor taken, before the text
    is looked at. *)
Theorem empty_text_reads_nothing eng p path conn :
  dbpath p = Some path -> sqlite_connect eng path = Ok conn ->
  (search eng "" p).1 = Ok ()
  /\ resultsView (search eng "" p).2 = []
  /\ resultsView_enabled (search eng "" p).2 = false
  /\ shown_rows (search eng "" p).2 = []
  /\ exists events,
       db_log (search eng "" p).2 = db_log p ++ events
       /\ DbConnect path ∈ events
       /\ forall sql, DbExecute sql ∉ events.
Proof.
  intros Hpath Hconn. rewrite search_run, Hpath, Hconn, decide_True by done.
  cbn [fst snd with_view resultsView resultsView_enabled db_log].
  do 4 (split; [done|]). exists (opening_events path).
  split; [done|]. unfold opening_events. split; [set_solver|].
  intros sql. set_solver.
Qed.

Lemma empty_text_reads_nothing_witness :
  (search (demo_engine (Ok dropped_database)) "" (demo_panel false)).1 = Ok ()
  /\ shown_rows (search (demo_engine (Ok dropped_database)) "" (demo_panel false)).2 = [].
Proof.
  destruct (empty_text_reads_nothing (demo_engine (Ok dropped_database))
              (demo_panel false) "index.db" dropped_database eq_refl eq_refl)
    as (H1 & _ & _ & H4 & _).
  split; [exact H1|exact H4].
Defined.

(** C4 as the claim has it fails: for the empty text a connection is
    opened, and a failure to open it is raised. *)
Lemma empty_text_opens_connection_counterexample :
  db_log (search (demo_engine demo_database) "" (demo_panel false)).2
  = [DbConnect "index.db"; DbCreateFunction "rank" 1 default_weights; DbCursor]
  /\ (search (demo_engine (Raise OperationalError)) "" (demo_panel false)).1
     = Raise OperationalError.
Proof. split; vm_compute; reflexivity. Qed.

(** C3, as the code has it.  Nothing in [search] catches an exception.
    Without a path, or when the connection cannot be opened, [search]
    raises and leaves the panel as it was; when the query fails, [search]
    raises what the engine raised, the view emptied and disabled before,
    so no row is shown. *)
Theorem search_failure_is_raised eng (text : pystr) p :
  (dbpath p = None -> search eng text p = (Raise TypeError, p))
  /\ (forall path e, dbpath p = Some path -> sqlite_connect eng path = Raise e ->
        search eng text p = (Raise e, p))
  /\ (forall path conn e,
        dbpath p = Some path -> sqlite_connect eng path = Ok conn -> text <> "" ->
        execute eng conn (select_statement (match_expression (fuzzyCheck p) text))
        = Raise e ->
        (search eng text p).1 = Raise e
        /\ resultsView (search eng text p).2 = []
        /\ resultsView_enabled (search eng text p).2 = false
        /\ shown_rows (search eng text p).2 = []).
Proof.
  rewrite search_run. split; [by intros ->|]. split.
  - intros path e -> ->. done.
  - intros path conn e -> -> Ht He. rewrite decide_False by done.
    cbv zeta. rewrite He. done.
Qed.

Lemma search_failure_is_raised_witness :
  (search (demo_engine (Ok dropped_database)) "hydrant" (demo_panel false)).1
  = Raise OperationalError
  /\ shown_rows (search (demo_engine (Ok dropped_database)) "hydrant" (demo_panel false)).2
     = [].
Proof.
  destruct (search_failure_is_raised (demo_engine (Ok dropped_database))
              "hydrant" (demo_panel false)) as (_ & _ & H).
  destruct (H "index.db" dropped_database OperationalError eq_refl eq_refl
              ltac:(discriminate) eq_refl) as (H1 & _ & _ & H4).
  split; [exact H1|exact H4].
Defined.

(** C3 as the claim has it fails: a query on an index whose tables a
    rebuild has dropped raises [OperationalError] to the caller, and so
    does a search before any index path is known. *)
Lemma search_failure_propagates_counterexample :
  (search (demo_engine (Ok dropped_database)) "hydrant" (demo_panel false)).1
  = Raise OperationalError
  /\ (search (demo_engine demo_database) "hydrant"
        {| dbpath := None; fuzzyCheck := false; resultsView := [];
           resultsView_enabled := true; db_log := [] |}).1
     = Raise TypeError.
Proof. split; vm_compute; reflexivity. Qed.

(** C2, evaluated where the code breaks it.  On the index of the small
    project the query for [hydrant] shows feature 7 before feature 9, the
    order of the table.  The match statistics of the two rows are
    [1, 1, 1, 3, 2] and [1, 1, 2, 3, 2]: by the sum [rank] is written to
    return, and by the sum over documents containing the term as well,
    the row of feature 7 (docid 1) is less relevant than the row of
    feature 9 (docid 3).  [rank] is registered on the connection, but
    the one statement executed is the select, which has no ORDER BY and
    never calls it; [rank] for its part raises [TypeError] on the
    statistics of every row. *)
Theorem search_order_ignores_rank :
  shown_rows (search (demo_engine demo_database) "hydrant" (demo_panel false)).2
  = [("hydrants", 7, "name: [hydrant]"); ("hydrants", 9, "name: [hydrant] [hydrant]")]
  /\ db_log (search (demo_engine demo_database) "hydrant" (demo_panel false)).2
     = [DbConnect "index.db"; DbCreateFunction "rank" 1 default_weights; DbCursor;
        DbExecute (select_statement "hydrant"); DbClose]
  /\ docid <$> demo_rows = [1; 2; 3]
  /\ (fun row => struct_unpack_I LittleEndian
                   (fts_matchinfo (demo_engine demo_database) "hydrant" demo_rows row))
       <$> demo_rows
     = [Ok [1; 1; 1; 3; 2]; Ok [1; 1; 0; 3; 2]; Ok [1; 1; 2; 3; 2]]
  /\ (exists f1 f3,
        rank_sum default_weights [1; 1; 1; 3; 2] = Ok (PyFloat f1)
        /\ rank_sum default_weights [1; 1; 2; 3; 2] = Ok (PyFloat f3)
        /\ PrimFloat.ltb f1 f3 = true)
  /\ (exists g1 g3,
        sum_over_positions docs_containing_term [1; 1; 1; 3; 2] default_weights
        = Ok (PyFloat g1)
        /\ sum_over_positions docs_containing_term [1; 1; 2; 3; 2] default_weights
           = Ok (PyFloat g3)
        /\ PrimFloat.ltb g1 g3 = true)
  /\ Forall (fun row =>
               make_rank_func LittleEndian default_weights
                 (fts_matchinfo (demo_engine demo_database) "hydrant" demo_rows row)
               = Raise TypeError) demo_rows.
Proof.
  split; [vm_compute; reflexivity|]. split; [vm_compute; reflexivity|].
  split; [vm_compute; reflexivity|].
  split; [vm_compute; reflexivity|]. split; [|split].
  - eexists _, _. split; [vm_compute; reflexivity|].
    split; [vm_compute; reflexivity|]. vm_compute. reflexivity.
  - eexists _, _. split; [vm_compute; reflexivity|].
    split; [vm_compute; reflexivity|]. vm_compute. reflexivity.
  - repeat constructor.
Qed.

(** * Further properties *)

(** ** The rank function as it runs *)

(** [rank] never returns: the repetition count [len(matchinfo)/4] of the
    format is a float, and a string cannot be repeated by a float.  For
    every blob, whatever its length and its content, and every weight
    vector, [rank] raises; for a blob of fewer than [2^64] bytes what it
    raises is [TypeError] (beyond the range of a float the division
    itself overflows). *)
Theorem rank_raises_type_error bo weights blob :
  is_ok (make_rank_func bo weights blob) = false
  /\ (Z.of_nat (length blob) < 2 ^ 64 ->
      make_rank_func bo weights blob = Raise TypeError).
Proof.
  unfold make_rank_func. cbn [py_div]. unfold int_true_divide.
  change (4 =? 0) with false. cbv iota. change (Z.abs 4) with 4.
  destruct (Z.leb_spec (float_overflow_bound * 4) (Z.abs (Z.of_nat (length blob))))
    as [Hle|_].
  - split; [done|]. intros Hlen. exfalso.
    assert (Hb : 2 ^ 64 < float_overflow_bound) by reflexivity.
    rewrite Z.abs_eq in Hle by lia.
    apply (Z.lt_irrefl (2 ^ 64)).
    apply Z.lt_le_trans with float_overflow_bound; [exact Hb|].
    apply Z.le_trans with (float_overflow_bound * 4).
    + rewrite <- (Z.mul_1_r float_overflow_bound) at 1.
      apply Z.mul_le_mono_nonneg_l; [|done].
      by apply Z.lt_le_incl, Z.lt_trans with (2 ^ 64).
    + apply Z.le_trans with (Z.of_nat (length blob)); [exact Hle|].
      by apply Z.lt_le_incl.
  - done.
Qed.

Lemma rank_raises_type_error_witness :
  make_rank_func LittleEndian default_weights blob_5_10_2 = Raise TypeError
  /\ make_rank_func LittleEndian default_weights [] = Raise TypeError.
Proof.
  split.
  - apply (rank_raises_type_error LittleEndian default_weights blob_5_10_2).
    reflexivity.
  - apply (rank_raises_type_error LittleEndian default_weights []).
    reflexivity.
Defined.

(** ** Validation: what is not caught *)

Lemma read_columns_good (vs rest : list pyval) :
  forallb has_columns vs = true ->
  read_columns (vs ++ rest) = read_columns rest.
Proof.
  induction vs as [|v vs IH]; [done|].
  cbn [forallb]. intros [Hv Hvs]%andb_true_iff.
  cbn [app read_columns].
  destruct v as [| | | | |items]; try discriminate Hv. cbn [has_columns getitem] in *.
  apply bool_decide_eq_true_1 in Hv as [cols Hc]. rewrite Hc.
  cbn [mbind result_bind]. by apply IH.
Qed.

(** Only [KeyError] is caught.  Settings that are not a dictionary, or a
    layer entry that is not one (met before any entry without
    ['columns']), raise [TypeError] out of the validation, and a
    ['search'] that is not a dictionary raises [AttributeError]: such
    settings are not reported invalid. *)
Theorem valid_search_settings_raises_on_non_mapping settings :
  (is_dict settings = false -> valid_search_settings settings = Raise TypeError)
  /\ (forall v, getitem settings "search" = Ok v -> is_dict v = false ->
        valid_search_settings settings = Raise AttributeError)
  /\ (forall good k v rest,
        getitem settings "search" = Ok (VDict (good ++ (k, v) :: rest)) ->
        forallb has_columns good.*2 = true -> is_dict v = false ->
        valid_search_settings settings = Raise TypeError).
Proof.
  unfold valid_search_settings. split; [|split].
  - intros Hs. by destruct settings.
  - intros v -> Hv. cbn [mbind result_bind]. by destruct v.
  - intros good k v rest -> Hgood Hv. cbn [mbind result_bind values].
    rewrite fmap_app, fmap_cons. cbn [snd].
    rewrite read_columns_good by done. cbn [read_columns].
    by destruct v.
Qed.

Lemma valid_search_settings_raises_on_non_mapping_witness :
  valid_search_settings
    (VDict [("search", VDict [("roads", VDict [("columns", VList [VStr "name"])]);
                              ("pipes", VNone);
                              ("mains", VDict [])])])
  = Raise TypeError
  /\ valid_search_settings (VDict [("search", VList [])]) = Raise AttributeError.
Proof.
  destruct (valid_search_settings_raises_on_non_mapping
              (VDict [("search", VDict [("roads", VDict [("columns", VList [VStr "name"])]);
                                        ("pipes", VNone);
                                        ("mains", VDict [])])]))
    as (_ & _ & H3).
  destruct (valid_search_settings_raises_on_non_mapping
              (VDict [("search", VList [])])) as (_ & H2 & _).
  split.
  - apply (H3 [("roads", VDict [("columns", VList [VStr "name"])])] "pipes" VNone
              [("mains", VDict [])]); reflexivity.
  - apply (H2 (VList [])); reflexivity.
Defined.

(** ** Records of the index build *)

Section Records.

Variable src : layer_source.

Lemma render_lookup (fields : gset string) (f : feature) (c : string) :
  render fields f !! quote_column c
  = if decide (c ∈ fields) then Some (c +:+ ": " +:+ feature_value f c) else None.
Proof.
  unfold render.
  set (P := fun (data : gmap string string) (X : gset string) =>
           data !! quote_column c
           = if decide (c ∈ X) then Some (c +:+ ": " +:+ feature_value f c) else None).
  change (P (set_fold (fun field data =>
                         <[ quote_column field := field +:+ ": " +:+ feature_value f field ]> data)
                      ∅ fields) fields).
  apply set_fold_ind_L; unfold P.
  - by rewrite lookup_empty, decide_False by set_solver.
  - intros x X data Hx IH. destruct (decide (c = x)) as [->|Hne].
    + rewrite lookup_insert_eq, decide_True by set_solver. done.
    + rewrite lookup_insert_ne by (intros ?%quote_column_inj; done).
      rewrite IH. destruct (decide (c ∈ X)).
      * by rewrite decide_True by set_solver.
      * by rewrite decide_False by set_solver.
Qed.

Lemma get_data_record l columns rowid r :
  r ∈ get_data l columns rowid ->
  exists f, f ∈ layer_features l
    /\ record_layer r = layer_name l
    /\ record_fid r = feature_id f
    /\ record_data r
       = render (list_to_set (layer_fields l) ∩ list_to_set columns) f
    /\ list_to_set (layer_fields l) ∩ list_to_set columns <> (∅ : gset string).
Proof.
  unfold get_data. case_decide as Hf; [by intros ?%elem_of_nil|].
  revert rowid. induction (layer_features l) as [|f fs IH]; intros rowid.
  { by intros ?%elem_of_nil. }
  cbn [get_data_features]. rewrite decide_False by by apply render_nonempty.
  intros [->|Hr]%elem_of_cons.
  - exists f. split; [left|done].
  - destruct (IH _ Hr) as (f' & Hin & H). exists f'. split; [by right|done].
Qed.

(** No empty row and nothing but rendered text: every record the generator
    yields comes from an entry of the configuration, a layer that entry
    stands for (a vector layer of the registry for ["_all"], the layer the
    registry returns for the name otherwise) and a feature of that layer,
    whose name and id it carries; it has at least one column, and under
    the quoted name of a column it holds the text [column: value] of that
    feature when the layer has the field and the entry configures it, and
    nothing otherwise. *)
Theorem records_hold_rendered_shared_fields cfg r :
  r ∈ (get_features src cfg).1 ->
  record_data r <> ∅
  /\ exists entry l f,
       entry ∈ cfg /\ layer_of_entry src entry l /\ f ∈ layer_features l
       /\ record_layer r = layer_name l /\ record_fid r = feature_id f
       /\ forall c,
            record_data r !! quote_column c
            = if decide (c ∈ layer_fields l /\ c ∈ entry.2)
              then Some (c +:+ ": " +:+ feature_value f c) else None.
Proof.
  intros Hr.
  destruct (get_features_from_layer src _ _ _ Hr)
    as (entry & l & rowid & He & Hsrc & Hl).
  destruct (get_data_record _ _ _ _ Hl) as (f & Hf & Hname & Hfid & Hdata & Hne).
  split.
  - rewrite Hdata. by apply render_nonempty.
  - exists entry, l, f. do 5 (split; [done|]). intros c.
    rewrite Hdata, render_lookup.
    destruct (decide (c ∈ layer_fields l /\ c ∈ entry.2)) as [[H1 H2]|Hn].
    + by rewrite decide_True by set_solver.
    + rewrite decide_False; [done|]. set_solver.
Qed.

End Records.

Lemma records_hold_rendered_shared_fields_witness :
  exists r, (get_features demo_source demo_config).1 !! 2%nat = Some r
    /\ record_data r <> ∅
    /\ exists entry l f,
         entry ∈ demo_config /\ layer_of_entry demo_source entry l
         /\ f ∈ layer_features l
         /\ record_layer r = layer_name l /\ record_fid r = feature_id f.
Proof.
  eexists. split; [vm_compute; reflexivity|].
  edestruct (records_hold_rendered_shared_fields demo_source demo_config)
    as (Hne & entry & l & f & H1 & H2 & H3 & H4 & H5 & _).
  { eapply (list_elem_of_lookup_2 _ 2%nat). vm_compute. reflexivity. }
  split; [exact Hne|]. exists entry, l, f.
  split; [exact H1|]. split; [exact H2|]. split; [exact H3|].
  split; [exact H4|exact H5].
Defined.

(** ** The generator over several entries, and the commit *)

Section Generator.

Variable src : layer_source.

Lemma get_data_advance l columns rowid :
  last_count rowid (get_data l columns rowid)
  = rowid + Z.of_nat (length (get_data l columns rowid)).
Proof. apply last_count_consecutive, get_data_ids. Qed.

Lemma get_features_from_app c1 c2 : forall rowid,
  get_features_from src (c1 ++ c2) rowid
  = match (get_features_from src c1 rowid).2 with
    | Some e => get_features_from src c1 rowid
    | None =>
        ((get_features_from src c1 rowid).1
         ++ (get_features_from src c2
               (rowid + Z.of_nat (length (get_features_from src c1 rowid).1))).1,
         (get_features_from src c2
            (rowid + Z.of_nat (length (get_features_from src c1 rowid).1))).2)
    end.
Proof.
  induction c1 as [|[layername columns] c1 IH]; intros rowid.
  { cbn [app get_features_from fst snd length]. rewrite Z.add_0_r.
    by destruct (get_features_from src c2 rowid). }
  cbn [app get_features_from]. case_decide as Hall.
  - pose proof (get_features_all_ids (vector_layers src) columns rowid) as [_ Hadv].
    destruct (get_features_all (vector_layers src) columns rowid) as [rows rowid'].
    cbn [fst snd] in Hadv. subst rowid'. rewrite IH.
    destruct (get_features_from src c1 _) as [more [e|]]; cbn [fst snd]; [done|].
    rewrite length_app, Nat2Z.inj_add, Z.add_assoc, app_assoc. done.
  - destruct (layer_by_name src layername) as [l|e].
    + rewrite get_data_advance, IH.
      destruct (get_features_from src c1 _) as [more [e|]]; cbn [fst snd]; [done|].
      rewrite length_app, Nat2Z.inj_add, Z.add_assoc, app_assoc. done.
    + destruct e; try done; apply IH.
Qed.

(** The generator over a configuration in two parts yields the records of
    the first part and then, numbered from where the first part stopped,
    those of the second; when the first part ends with an exception the
    second part is never started. *)
Theorem get_features_of_concatenation c1 c2 :
  ((get_features src c1).2 = None ->
   get_features src (c1 ++ c2)
   = ((get_features src c1).1
      ++ (get_features_from src c2 (Z.of_nat (length (get_features src c1).1))).1,
      (get_features_from src c2 (Z.of_nat (length (get_features src c1).1))).2)
   /\ record_id <$> (get_features_from src c2
                       (Z.of_nat (length (get_features src c1).1))).1
      = seqZ (Z.of_nat (length (get_features src c1).1) + 1)
             (Z.of_nat (length (get_features_from src c2
                                  (Z.of_nat (length (get_features src c1).1))).1)))
  /\ (forall e, (get_features src c1).2 = Some e ->
        get_features src (c1 ++ c2) = get_features src c1).
Proof.
  unfold get_features. split.
  - intros Hnone. rewrite get_features_from_app, Hnone. split; [done|].
    apply get_features_from_ids.
  - intros e He. by rewrite get_features_from_app, He.
Qed.


(** The calls up to the creation of the tables: either all of them were
    carried out, FTS4 having taken the arguments, or the build stopped
    among the calls before the full-text table. *)
Lemma create_tables_events eng cfg dbpath evs raised :
  create_tables eng cfg dbpath = (evs, raised) ->
  (raised = None
   /\ is_ok (fts4_declare eng (elements (get_columns cfg))) = true
   /\ evs = BConnect dbpath :: drop_and_create
            ++ [create_search_table (elements (get_columns cfg))])
  \/ (raised <> None
      /\ Forall (fun ev => ev ∈ (BConnect dbpath :: drop_and_create)) evs).
Proof.
  unfold create_tables.
  destruct (carry_out eng [] (BConnect dbpath :: drop_and_create))
    as [done [e|]] eqn:Hrun;
    destruct (carry_out_app _ _ _ _ _ Hrun) as (k & Hk & Hnone).
  - intros [= <- <-]. right. split; [done|]. rewrite Hk. cbn [app].
    apply Forall_forall. intros ev Hev. by eapply subseteq_take.
  - rewrite (Hnone eq_refl). cbn [app].
    destruct (fts4_declare eng _) as [columns|e].
    + intros [= <- <-]. left. done.
    + intros [= <- <-]. right. split; [done|]. by apply Forall_forall.
Qed.

Lemma insert_row_not_before r dbpath :
  (insert_featureinfo r ∉ (BConnect dbpath :: drop_and_create))
  /\ (insert_search r ∉ (BConnect dbpath :: drop_and_create)).
Proof.
  assert (Hs : forall fields rest,
            "INSERT INTO search(docid, " +:+ fields +:+ rest
            = String "I" ("NSERT INTO search(docid, " +:+ fields +:+ rest)) by done.
  unfold drop_and_create, insert_featureinfo, insert_search.
  split; intros Hin; repeat (apply elem_of_cons in Hin as [Heq|Hin]);
    try (by apply elem_of_nil in Hin); try discriminate Heq.
  all: injection Heq as Heq _; rewrite Hs in Heq; discriminate Heq.
Qed.

(** How a build ends: it ran to its end, with every call carried out; or
    it raised, having got no further than the inserts. *)
Lemma build_index_events_cases eng cfg dbpath :
  ((build_index_events eng src cfg dbpath).2 = None
   /\ (get_features src cfg).2 = None
   /\ is_ok (fts4_declare eng (elements (get_columns cfg))) = true
   /\ (build_index_events eng src cfg dbpath).1
      = (BConnect dbpath :: drop_and_create
         ++ [create_search_table (elements (get_columns cfg))])
        ++ ((get_features src cfg).1 ≫= insert_row)
        ++ [BCommit; BClose; BEmitIndexBuilt dbpath; BClose; BEmitFinished])
  \/ ((build_index_events eng src cfg dbpath).2 <> None
      /\ Forall (fun ev => ev <> BCommit /\ ev <> BEmitIndexBuilt dbpath)
                (build_index_events eng src cfg dbpath).1
      /\ (is_ok (fts4_declare eng (elements (get_columns cfg))) = false ->
          Forall (fun ev => ev ∈ (BConnect dbpath :: drop_and_create))
                 (build_index_events eng src cfg dbpath).1)).
Proof.
  assert (Hbefore : Forall (fun ev => ev <> BCommit /\ ev <> BEmitIndexBuilt dbpath)
                      (BConnect dbpath :: drop_and_create)).
  { unfold drop_and_create. by repeat constructor. }
  assert (Hrows : forall rows : list feature_record,
            Forall (fun ev => ev <> BCommit /\ ev <> BEmitIndexBuilt dbpath)
                   (rows ≫= insert_row)).
  { intros rows. apply Forall_forall. intros ev (r & Hev & _)%list_elem_of_bind.
    unfold insert_row, insert_featureinfo, insert_search in Hev.
    by repeat (apply elem_of_cons in Hev as [->|Hev]); [| |apply elem_of_nil in Hev]. }
  assert (Hcreated : Forall (fun ev => ev <> BCommit /\ ev <> BEmitIndexBuilt dbpath)
                       (BConnect dbpath :: drop_and_create
                        ++ [create_search_table (elements (get_columns cfg))])).
  { unfold drop_and_create, create_search_table. cbn [app]. by repeat constructor. }
  unfold build_index_events.
  destruct (create_tables eng cfg dbpath) as [done raised] eqn:Hcreate.
  destruct (create_tables_events _ _ _ _ _ Hcreate)
    as [(-> & Hdeclare & ->)|(Hraised & Hdone)].
  2:{ destruct raised as [e|]; [|done]. right. cbn [fst snd].
      split; [done|]. split; [|done].
      eapply Forall_impl; [exact Hdone|]. intros ev Hev. cbn beta in Hev.
      by eapply Forall_forall in Hbefore. }
  destruct (get_features src cfg) as [rows gen] eqn:Hgen. cbn [fst snd].
  destruct (carry_out eng _ (rows ≫= insert_row)) as [done [e|]] eqn:Hrun;
    destruct (carry_out_app _ _ _ _ _ Hrun) as (k & Hk & Hnone).
  { right. cbn [fst snd]. split; [done|]. rewrite Hdeclare. split; [|done].
    rewrite Hk. apply Forall_app. split; [exact Hcreated|].
    apply Forall_take, Hrows. }
  rewrite (Hnone eq_refl). rewrite (Hnone eq_refl) in Hrun.
  assert (Hstatements :
            Forall (fun ev => ev <> BCommit /\ ev <> BEmitIndexBuilt dbpath)
              ((BConnect dbpath :: drop_and_create
                ++ [create_search_table (elements (get_columns cfg))])
               ++ rows ≫= insert_row)).
  { apply Forall_app. split; [exact Hcreated|apply Hrows]. }
  destruct gen as [e|].
  { right. cbn [fst snd]. split; [done|]. rewrite Hdeclare. by split. }
  cbn [carry_out refusal].
  destruct (refuses eng _ BCommit) as [e|].
  { right. cbn [fst snd]. split; [done|]. rewrite Hdeclare. by split. }
  left. cbn [fst snd]. do 3 (split; [done|]).
  by rewrite <- !app_assoc.
Qed.

(** The build commits and announces the index exactly when it ran to its
    end, and that takes three things: SQLite carried out every call, FTS4
    took the arguments of the full-text table, and the generator ended
    without an exception.  The calls are then, in this order, the
    connection, the creation of the two tables, the two inserts of every
    record, the commit and the closing calls.  An exception of the
    generator makes the build raise; so does a refusal of FTS4, and then
    no row was inserted. *)
Theorem build_commits_only_after_all_rows eng cfg dbpath :
  ((build_index_events eng src cfg dbpath).2 = None
   <-> BCommit ∈ (build_index_events eng src cfg dbpath).1)
  /\ ((build_index_events eng src cfg dbpath).2 = None
      <-> BEmitIndexBuilt dbpath ∈ (build_index_events eng src cfg dbpath).1)
  /\ ((build_index_events eng src cfg dbpath).2 = None
      <-> is_ok (build_index_on eng src cfg dbpath) = true)
  /\ ((build_index_events eng src cfg dbpath).2 = None ->
      (get_features src cfg).2 = None
      /\ is_ok (fts4_declare eng (elements (get_columns cfg))) = true
      /\ (build_index_events eng src cfg dbpath).1
         = (BConnect dbpath :: drop_and_create
            ++ [create_search_table (elements (get_columns cfg))])
           ++ ((get_features src cfg).1 ≫= insert_row)
           ++ [BCommit; BClose; BEmitIndexBuilt dbpath; BClose; BEmitFinished])
  /\ (forall e, (get_features src cfg).2 = Some e ->
        (build_index_events eng src cfg dbpath).2 <> None)
  /\ (forall e, fts4_declare eng (elements (get_columns cfg)) = Raise e ->
        (build_index_events eng src cfg dbpath).2 <> None
        /\ forall r,
             (insert_featureinfo r ∉ (build_index_events eng src cfg dbpath).1)
             /\ (insert_search r ∉ (build_index_events eng src cfg dbpath).1)).
Proof.
  pose proof (build_index_events_cases eng cfg dbpath) as Hcases.
  assert (Hon : is_ok (build_index_on eng src cfg dbpath) = true
                <-> (build_index_events eng src cfg dbpath).2 = None).
  { unfold build_index_on.
    destruct Hcases as [(Hnone & _ & Hdeclare & _)|(Hsome & _)].
    - destruct (build_index_events eng src cfg dbpath) as [evs raised].
      cbn [snd] in Hnone. subst raised.
      by destruct (fts4_declare eng _).
    - destruct (build_index_events eng src cfg dbpath) as [evs [e|]]; [|done].
      by cbn [snd is_ok]. }
  destruct Hcases as [(Hnone & Hgen & Hdeclare & Hevs)|(Hsome & Hcalls & Hrefused)].
  - split; [|split; [|split; [|split; [|split]]]].
    + split; [|done]. intros _. rewrite Hevs. set_solver.
    + split; [|done]. intros _. rewrite Hevs. set_solver.
    + by symmetry.
    + done.
    + intros e He. by rewrite He in Hgen.
    + intros e He. by rewrite He in Hdeclare.
  - split; [|split; [|split; [|split; [|split]]]].
    + split; [done|]. intros Hin.
      by destruct (proj1 (Forall_forall _ _) Hcalls _ Hin).
    + split; [done|]. intros Hin.
      by destruct (proj1 (Forall_forall _ _) Hcalls _ Hin).
    + by symmetry.
    + done.
    + done.
    + intros e He. split; [done|]. intros r.
      assert (Hd : is_ok (fts4_declare eng (elements (get_columns cfg))) = false)
        by by rewrite He.
      destruct (insert_row_not_before r dbpath) as [H1 H2].
      split; intros Hin;
        [apply H1|apply H2]; exact (proj1 (Forall_forall _ _) (Hrefused Hd) _ Hin).
Qed.

(** The index of a build that met no refusal is the index of
    [build_index]. *)
Lemma build_index_accepted cfg dbpath :
  build_index_on accepting_engine src cfg dbpath = build_index src cfg.
Proof.
  unfold build_index_on, build_index, build_index_events, create_tables.
  rewrite carry_out_accepting. cbn [fts4_declare accepting_engine].
  destruct (get_features src cfg) as [rows [e|]]; rewrite carry_out_accepting;
    [done|]. rewrite carry_out_accepting. cbn [mbind result_bind fst].
  by rewrite list_to_set_elements_L.
Qed.

End Generator.

Lemma get_features_of_concatenation_witness :
  get_features demo_source (demo_config ++ demo_config)
  = ((get_features demo_source demo_config).1
     ++ (get_features_from demo_source demo_config
           (Z.of_nat (length (get_features demo_source demo_config).1))).1,
     (get_features_from demo_source demo_config
        (Z.of_nat (length (get_features demo_source demo_config).1))).2).
Proof.
  apply (get_features_of_concatenation demo_source demo_config demo_config).
  vm_compute. reflexivity.
Defined.


(** ** The insert into the full-text table *)

Lemma py_join_question_marks n :
  py_join "," (replicate (S n) "?")
  = String "?"%char (match n with
                     | O => ""
                     | S _ => String ","%char (py_join "," (replicate n "?"))
                     end).
Proof. by destruct n. Qed.

Lemma py_rstrip_repeat n :
  py_rstrip ","%char (py_repeat "?," (S n)) = py_join "," (replicate (S n) "?").
Proof.
  induction n as [|n IH]; [reflexivity|].
  change (py_repeat "?," (S (S n)))
    with (String "?"%char (String ","%char (py_repeat "?," (S n)))).
  cbn [py_rstrip]. rewrite IH, (py_join_question_marks (S n)).
  by rewrite (py_join_question_marks n).
Qed.

(** The placeholders are one [?] per value, commas between them and none
    at either end. *)
Lemma placeholders_join n : placeholders n = py_join "," (replicate n "?").
Proof.
  unfold placeholders, py_strip. destruct n as [|n]; [done|].
  rewrite py_rstrip_repeat, py_join_question_marks. done.
Qed.

Section Inserts.

Variable src : layer_source.

Lemma fts_columns_keys cfg r :
  r ∈ (get_features src cfg).1 -> dom (record_data r) ⊆ get_columns cfg.
Proof.
  intros Hr.
  destruct (get_features_from_origin src _ _ _ Hr) as ([sel columns] & l & rowid & He & Hl).
  rewrite (get_data_keys _ _ _ _ Hl). unfold get_columns.
  rewrite get_columns_outer. cbn [snd].
  intros q (c & -> & [_ Hc]%elem_of_intersection)%elem_of_map.
  apply elem_of_union. right. apply elem_of_map. exists c. split; [done|].
  unfold indexed_field_set. apply elem_of_union_list.
  exists (list_to_set columns). split; [|done].
  apply list_elem_of_fmap. by exists (sel, columns).
Qed.

Lemma record_data_nonempty cfg r :
  r ∈ (get_features src cfg).1 -> record_data r <> ∅.
Proof.
  intros Hr.
  destruct (get_features_from_origin src _ _ _ Hr) as (entry & l & rowid & He & Hl).
  destruct (get_data_record _ _ _ _ Hl) as (f & _ & _ & _ & -> & Hne).
  by apply render_nonempty.
Qed.

(** The insert of a record into the full-text table names the columns of
    the record, each once and each a column of the table, in the order of
    its values, and has exactly one [?] per value: as many columns as
    placeholders as bound values, and at least one. *)
Theorem insert_search_is_well_formed cfg r :
  r ∈ (get_features src cfg).1 ->
  exists keys vals,
    map_to_list (record_data r) = zip keys vals
    /\ length keys = length vals /\ keys <> [] /\ NoDup keys
    /\ Forall (fun k => k ∈ get_columns cfg) keys
    /\ insert_search r
       = BExecute ("INSERT INTO search(docid, " +:+ py_join "," keys +:+ ") VALUES("
                   +:+ pretty (record_id r) +:+ ", "
                   +:+ py_join "," (replicate (length vals) "?") +:+ ")")
                  (SqlText <$> vals).
Proof.
  intros Hr.
  exists (map_to_list (record_data r)).*1, (map_to_list (record_data r)).*2.
  split; [by rewrite zip_fst_snd|]. split; [by rewrite !length_fmap|].
  pose proof (record_data_nonempty cfg r Hr) as Hne.
  pose proof (fts_columns_keys cfg r Hr) as Hsub.
  split; [|split; [|split]].
  - intros Hnil. apply Hne. apply map_to_list_empty_iff.
    by apply fmap_nil_inv in Hnil.
  - apply NoDup_fst_map_to_list.
  - apply Forall_forall. intros k Hk. apply Hsub.
    apply list_elem_of_fmap in Hk as ([k' v] & -> & Hkv).
    apply elem_of_map_to_list in Hkv. by apply elem_of_dom_2 in Hkv.
  - unfold insert_search. by rewrite placeholders_join.
Qed.

End Inserts.

Lemma insert_search_is_well_formed_witness :
  exists r keys vals,
    (get_features demo_source demo_config).1 !! 0%nat = Some r
    /\ map_to_list (record_data r) = zip keys vals
    /\ length keys = length vals /\ keys <> [].
Proof.
  assert (Hr : exists r, (get_features demo_source demo_config).1 !! 0%nat = Some r)
    by (vm_compute; eauto).
  destruct Hr as [r Hr].
  destruct (insert_search_is_well_formed demo_source demo_config r
              (list_elem_of_lookup_2 _ _ _ Hr))
    as (keys & vals & H1 & H2 & H3 & _).
  exists r, keys, vals. split; [exact Hr|]. split; [exact H1|].
  split; [exact H2|exact H3].
Defined.

(** ** A query on the index a build has made *)

Section BuiltIndex.

Variable src : layer_source.
Variable eng : sqlite.

Lemma filter_no_match {A} (P : A -> Prop) `{!forall x, Decision (P x)} (l : list A) :
  (forall x, x ∈ l -> ~ P x) -> filter P l = [].
Proof.
  induction l as [|x l IH]; intros Hl; [done|].
  rewrite filter_cons_False by (apply Hl; left). apply IH.
  intros y Hy. apply Hl. by right.
Qed.

(** With distinct ids, the join finds for a row the one [featureinfo] row
    of its record. *)
Lemma featureinfo_of_record (rows : list feature_record) r :
  NoDup (record_id <$> rows) -> r ∈ rows ->
  filter (fun info => info_id info = record_id r) (info_of_record <$> rows)
  = [info_of_record r].
Proof.
  induction rows as [|r0 rows IH]; intros Hnd Hr; [by apply elem_of_nil in Hr|].
  rewrite fmap_cons in Hnd. apply NoDup_cons in Hnd as [Hfresh Hnd].
  rewrite fmap_cons. apply elem_of_cons in Hr as [->|Hr].
  - rewrite filter_cons_True by done. f_equal. apply filter_no_match.
    intros info (r' & -> & Hr')%list_elem_of_fmap Heq. cbn in Heq.
    apply Hfresh. rewrite <- Heq. by apply list_elem_of_fmap_2.
  - rewrite filter_cons_False; [by apply IH|].
    cbn. intros Heq. apply Hfresh. rewrite Heq. by apply list_elem_of_fmap_2.
Qed.

Lemma join_records (rows part : list feature_record) (matches : fts_row -> bool)
    (expr : pystr) :
  NoDup (record_id <$> rows) -> part ⊆ rows ->
  (filter (fun row => matches row = true) (fts_of_record <$> part) ≫= fun row =>
     (fun info => (info_layer info, info_featureid info, fts_snippet eng expr row))
       <$> filter (fun info => info_id info = docid row) (info_of_record <$> rows))
  = (fun r => (record_layer r, record_fid r, fts_snippet eng expr (fts_of_record r)))
      <$> filter (fun r => matches (fts_of_record r) = true) part.
Proof.
  intros Hnd. induction part as [|r part IH]; intros Hsub; [done|].
  assert (Hr : r ∈ rows) by (apply Hsub; left).
  assert (Hpart : part ⊆ rows) by (intros x Hx; apply Hsub; by right).
  rewrite fmap_cons. destruct (matches (fts_of_record r)) eqn:Hm.
  - rewrite !filter_cons_True by done. cbn [mbind list_bind].
    change (docid (fts_of_record r)) with (record_id r).
    rewrite (featureinfo_of_record rows r Hnd Hr). rewrite fmap_cons.
    cbn [fmap list_fmap app]. f_equal. by apply IH.
  - rewrite !filter_cons_False by (rewrite Hm; done). by apply IH.
Qed.

(** On the index a build has made, a match expression the engine accepts
    selects one result row for each record whose text matches, in the
    order of the ids, with the layer name and the feature id of that
    record, and not more than 100. *)
Theorem query_on_built_index cfg conn (expr : pystr) matches :
  build_index src cfg = Ok conn -> fts_match eng expr = Some matches ->
  select_hits eng conn expr
  = Ok (take 100
          ((fun r => (record_layer r, record_fid r,
                      fts_snippet eng expr (fts_of_record r)))
             <$> filter (fun r => matches (fts_of_record r) = true)
                        (get_features src cfg).1)).
Proof.
  unfold build_index. pose proof (get_features_from_ids src cfg 0) as Hids.
  fold (get_features src cfg) in Hids.
  destruct (get_features src cfg) as [rows [e|]]; [done|]. cbn [fst] in *.
  intros [= <-] Hm. unfold select_hits. cbn [search_table featureinfo]. rewrite Hm.
  do 2 f_equal. apply join_records; [|done].
  rewrite Hids. apply NoDup_seqZ.
Qed.

End BuiltIndex.

Lemma query_on_built_index_witness :
  exists conn,
    demo_database = Ok conn
    /\ select_hits (demo_engine demo_database) conn "hydrant"
       = Ok [("hydrants", 7, "name: [hydrant]");
             ("hydrants", 9, "name: [hydrant] [hydrant]")].
Proof.
  assert (Hdb : exists conn, demo_database = Ok conn) by (vm_compute; eauto).
  destruct Hdb as [conn Hdb]. exists conn. split; [exact Hdb|].
  rewrite (query_on_built_index demo_source (demo_engine demo_database)
             demo_config conn "hydrant" _ Hdb eq_refl).
  vm_compute. reflexivity.
Defined.

(** ** From a result back to the feature *)

Section Jump.

Variable src : layer_source.

Lemma features_by_id_head l fid f :
  f ∈ layer_features l -> feature_id f = fid ->
  exists f' rest, features_by_id l fid = f' :: rest
    /\ f' ∈ layer_features l /\ feature_id f' = fid.
Proof.
  intros Hf Hid. unfold features_by_id.
  assert (Hin : f ∈ filter (fun f => feature_id f = fid) (layer_features l))
    by by apply list_elem_of_filter.
  destruct (filter _ (layer_features l)) as [|f' rest] eqn:Hfilter.
  { by apply elem_of_nil in Hin. }
  exists f', rest. split; [done|].
  assert (Hf' : f' ∈ filter (fun f => feature_id f = fid) (layer_features l))
    by (rewrite Hfilter; left).
  apply list_elem_of_filter in Hf' as [? ?]. done.
Qed.

(** A result row made from a record of a layer leads back to it: when the
    name of the layer still resolves to the layer, [jump_to] on the item
    of the row shows the map, zooms to the feature id of the record on
    that layer and announces the selection of a feature of the layer with
    that id. *)
Theorem jump_to_finds_the_indexed_feature l columns rowid r snippet :
  r ∈ get_data l columns rowid ->
  layer_by_name src (layer_name l) = Ok l ->
  exists f,
    f ∈ layer_features l /\ feature_id f = record_fid r
    /\ jump_to src (item_of_hit (record_layer r, record_fid r, snippet))
       = JumpReturned [ShowMap; ZoomToFeatureIds l [record_fid r];
                       SelectionChanged l [f]].
Proof.
  intros Hr Hl.
  destruct (get_data_record _ _ _ _ Hr) as (f & Hf & Hname & Hfid & _).
  destruct (features_by_id_head l (record_fid r) f Hf (eq_sym Hfid))
    as (f' & rest & Hhead & Hf' & Hid').
  exists f'. split; [done|]. split; [done|].
  unfold jump_to. cbn [item_of_hit item_data]. by rewrite Hname, Hl, Hhead.
Qed.

(** What [jump_to] does not catch, and what it skips: an item without
    data is a no-op that looks up nothing; for an item with data an
    exception of the layer lookup, the [IndexError] of a name that is gone
    included, leaves [jump_to], and a layer without a feature of that id
    ends it with the [StopIteration] of [next], both before any
    navigation. *)
Theorem jump_to_stale_result_raises it :
  (item_data it = None -> jump_to src it = JumpReturned [])
  /\ (forall layername fid snippet e,
        item_data it = Some (layername, fid, snippet) ->
        layer_by_name src layername = Raise e ->
        jump_to src it = JumpRaised e)
  /\ (forall layername fid snippet l,
        item_data it = Some (layername, fid, snippet) ->
        layer_by_name src layername = Ok l ->
        (forall f, f ∈ layer_features l -> feature_id f <> fid) ->
        jump_to src it = JumpStopIteration).
Proof.
  unfold jump_to. split; [by intros ->|]. split.
  - intros layername fid snippet e -> ->. done.
  - intros layername fid snippet l -> -> Hnone.
    unfold features_by_id. by rewrite filter_no_match.
Qed.

End Jump.

Lemma jump_to_finds_the_indexed_feature_witness :
  exists r f,
    get_data demo_hydrants ["name"] 0 !! 2%nat = Some r
    /\ feature_id f = 9
    /\ jump_to demo_source (item_of_hit (record_layer r, record_fid r, "[hydrant]"))
       = JumpReturned [ShowMap; ZoomToFeatureIds demo_hydrants [record_fid r];
                       SelectionChanged demo_hydrants [f]].
Proof.
  assert (Hr : exists r, get_data demo_hydrants ["name"] 0 !! 2%nat = Some r
                         /\ record_fid r = 9)
    by (vm_compute; eauto).
  destruct Hr as (r & Hr & Hfid).
  destruct (jump_to_finds_the_indexed_feature demo_source demo_hydrants ["name"] 0
              r "[hydrant]" (list_elem_of_lookup_2 _ _ _ Hr) eq_refl)
    as (f & _ & Hid & Hjump).
  exists r, f. split; [exact Hr|]. split; [by rewrite Hid|exact Hjump].
Defined.

Lemma jump_to_stale_result_raises_witness :
  jump_to demo_source (item_of_hit ("mains", 7, "[hydrant]")) = JumpRaised IndexError
  /\ jump_to demo_source (item_of_hit ("hydrants", 10, "[hydrant]")) = JumpStopIteration.
Proof.
  split.
  - apply (jump_to_stale_result_raises demo_source
             (item_of_hit ("mains", 7, "[hydrant]"))) with "mains" 7 "[hydrant]";
      reflexivity.
  - apply (jump_to_stale_result_raises demo_source
             (item_of_hit ("hydrants", 10, "[hydrant]")))
      with "hydrants" 10 "[hydrant]" demo_hydrants; [reflexivity..|].
    intros f Hf. unfold demo_hydrants in Hf. cbn [layer_features] in Hf.
    set_solver.
Defined.

(** ** The view after a search *)

Section View.

Variable eng : sqlite.

Lemma replace_newlines_clean (s : string) :
  has_char 0x0a (replace_newlines s) = false.
Proof.
  unfold has_char, code_points. induction s as [|a s IH]; [done|].
  cbn [replace_newlines String.list_ascii_of_string fmap list_fmap existsb].
  fold (@fmap list list_fmap _ _ (fun a => N_of_ascii a)). rewrite IH, orb_false_r.
  destruct (Ascii.eqb_spec a "010"%char) as [->|Hne]; [done|].
  apply N.eqb_neq. intros Heq. apply Hne.
  by rewrite <- (ascii_N_embedding a), <- Heq.
Qed.

(** What the view showed before a search, and what was logged, has no
    part in what it shows after: once the connection opens, two panels
    with the same path and the same fuzzy option end a search of the same
    text with the same outcome and the same view. *)
Theorem search_replaces_the_view (text : pystr) p p' path conn :
  dbpath p = Some path -> sqlite_connect eng path = Ok conn ->
  dbpath p' = dbpath p -> fuzzyCheck p' = fuzzyCheck p ->
  (search eng text p').1 = (search eng text p).1
  /\ resultsView (search eng text p').2 = resultsView (search eng text p).2
  /\ resultsView_enabled (search eng text p').2
     = resultsView_enabled (search eng text p).2
  /\ (search eng text (search eng text p).2).1 = (search eng text p).1
  /\ resultsView (search eng text (search eng text p).2).2
     = resultsView (search eng text p).2.
Proof.
  intros Hpath Hconn Hpath' Hfuzzy.
  assert (Hrun : forall q, dbpath q = Some path -> fuzzyCheck q = fuzzyCheck p ->
            (search eng text q).1 = (search eng text p).1
            /\ resultsView (search eng text q).2 = resultsView (search eng text p).2
            /\ resultsView_enabled (search eng text q).2
               = resultsView_enabled (search eng text p).2).
  { intros q Hq Hfq. rewrite !search_run, Hq, Hpath, Hconn, Hfq.
    case_decide; [done|]. cbv zeta.
    by destruct (execute eng conn _). }
  destruct (Hrun p' ltac:(congruence) Hfuzzy) as (H1 & H2 & H3).
  do 3 (split; [done|]).
  assert (Hkeep : dbpath (search eng text p).2 = Some path
                  /\ fuzzyCheck (search eng text p).2 = fuzzyCheck p).
  { rewrite search_run, Hpath, Hconn. case_decide; [done|]. cbv zeta.
    by destruct (execute eng conn _). }
  destruct (Hrun _ (proj1 Hkeep) (proj2 Hkeep)) as (H4 & H5 & _). done.
Qed.

(** After a search whose query returned its rows, for a text that is not
    empty: the view holds one item per row of the query, in their order,
    each with its row as data and, as text, the layer and on a second
    line the snippet with its newlines replaced by blanks, and it is
    enabled; or, the query having returned no row, it holds the one item
    [No Results], which has no data, and is disabled. *)
Theorem view_after_search (text : pystr) p path conn query :
  text <> "" -> dbpath p = Some path -> sqlite_connect eng path = Ok conn ->
  execute eng conn (select_statement (match_expression (fuzzyCheck p) text))
  = Ok query ->
  (search eng text p).1 = Ok ()
  /\ (query <> [] ->
      item_data <$> resultsView (search eng text p).2 = Some <$> query
      /\ item_text <$> resultsView (search eng text p).2
         = (fun h => h.1.1 +:+ String "010"%char " " +:+ replace_newlines h.2) <$> query
      /\ resultsView_enabled (search eng text p).2 = true)
  /\ (query = [] ->
      resultsView (search eng text p).2
      = [ {| item_text := "No Results"; item_data := None |} ]
      /\ resultsView_enabled (search eng text p).2 = false)
  /\ Forall (fun h => has_char 0x0a (replace_newlines h.2) = false) query.
Proof.
  intros Ht Hpath Hconn Hquery.
  rewrite search_run, Hpath, Hconn, decide_False by done. cbv zeta.
  rewrite Hquery. cbn [fst snd with_view resultsView resultsView_enabled].
  split; [done|]. split; [|split].
  - intros Hne. destruct query as [|h query]; [done|].
    cbn [view_of_hits fst snd]. rewrite <- !list_fmap_compose. done.
  - by intros ->.
  - apply Forall_forall. intros h _. apply replace_newlines_clean.
Qed.

(** The connection a search opens is closed only at the end of a search
    that ran its query: the events of a search begin with the opening of
    the connection, and contain its closing exactly when the text is not
    empty and the search returned. *)
Theorem search_closes_only_after_a_query (text : pystr) p path conn :
  dbpath p = Some path -> sqlite_connect eng path = Ok conn ->
  exists events,
    db_log (search eng text p).2 = db_log p ++ DbConnect path :: events
    /\ (DbClose ∈ events <-> text <> "" /\ (search eng text p).1 = Ok ()).
Proof.
  intros Hpath Hconn. rewrite search_run, Hpath, Hconn.
  case_decide as Ht.
  - eexists. split; [reflexivity|]. cbn [fst]. split; [set_solver|].
    by intros [? _].
  - cbv zeta. destruct (execute eng conn _) as [query|e]; cbn [fst snd].
    + eexists. split; [reflexivity|]. split; [done|]. intros _. set_solver.
    + eexists. split; [reflexivity|]. split; [set_solver|]. by intros [_ ?].
Qed.

End View.

Lemma search_replaces_the_view_witness :
  resultsView
    (search (demo_engine demo_database) "hydrant"
       (search (demo_engine demo_database) "valve" (demo_panel false)).2).2
  = resultsView (search (demo_engine demo_database) "hydrant" (demo_panel false)).2.
Proof.
  assert (Hdb : exists conn, demo_database = Ok conn) by (vm_compute; eauto).
  destruct Hdb as [conn Hdb].
  destruct (search_replaces_the_view (demo_engine demo_database) "hydrant"
              (demo_panel false)
              (search (demo_engine demo_database) "valve" (demo_panel false)).2
              "index.db" conn eq_refl Hdb)
    as (_ & H2 & _); [vm_compute; reflexivity..|].
  exact H2.
Defined.

Lemma view_after_search_witness :
  item_text
    <$> resultsView (search (demo_engine demo_database) "hydrant" (demo_panel false)).2
  = [String.app "hydrants" (String "010"%char " name: [hydrant]");
     String.app "hydrants" (String "010"%char " name: [hydrant] [hydrant]")]
  /\ resultsView (search (demo_engine demo_database) "pump" (demo_panel false)).2
     = [ {| item_text := "No Results"; item_data := None |} ].
Proof.
  assert (Hdb : exists conn, demo_database = Ok conn) by (vm_compute; eauto).
  destruct Hdb as [conn Hdb].
  destruct (view_after_search (demo_engine demo_database) "hydrant" (demo_panel false)
              "index.db" conn
              [("hydrants", 7, "name: [hydrant]");
               ("hydrants", 9, "name: [hydrant] [hydrant]")])
    as (_ & H2 & _); [discriminate|reflexivity|exact Hdb| |].
  { injection Hdb as <-. vm_compute. reflexivity. }
  destruct (view_after_search (demo_engine demo_database) "pump" (demo_panel false)
              "index.db" conn [])
    as (_ & _ & H3 & _); [discriminate|reflexivity|exact Hdb| |].
  { injection Hdb as <-. vm_compute. reflexivity. }
  destruct (H2 ltac:(discriminate)) as (_ & Htext & _).
  split; [exact Htext|]. exact (proj1 (H3 eq_refl)).
Defined.

Lemma search_closes_only_after_a_query_witness :
  exists events,
    db_log (search (demo_engine (Ok dropped_database)) "hydrant" (demo_panel false)).2
    = db_log (demo_panel false) ++ DbConnect "index.db" :: events
    /\ (DbClose ∈ events
        <-> ("hydrant" : pystr) <> ""
            /\ (search (demo_engine (Ok dropped_database)) "hydrant"
                  (demo_panel false)).1 = Ok ()).
Proof.
  apply (search_closes_only_after_a_query (demo_engine (Ok dropped_database))
           "hydrant" (demo_panel false) "index.db" dropped_database);
    reflexivity.
Defined.

(** ** Settings as the builder receives them *)

Section RawSettings.

Variable py_str : pyval -> string.
Hypothesis py_str_string : forall s, py_str (VStr s) = s.

Lemma as_columns_strings cs cols :
  mapM as_column cs = Some cols -> cs = VStr <$> cols.
Proof.
  intros H. apply mapM_Some in H. induction H as [|c col cs cols Hc _ IH]; [done|].
  destruct c; try discriminate Hc. injection Hc as ->. by rewrite IH.
Qed.

Lemma add_columns_strings (cols : list string) (X : gset string) :
  foldl (fun columns c => columns ∪ {[ quote_column (py_str c) ]}) X (VStr <$> cols)
  = foldl (fun columns c => columns ∪ {[ quote_column c ]}) X cols.
Proof.
  revert X. induction cols as [|c cols IH]; intros X; [done|].
  cbn [fmap list_fmap foldl]. by rewrite py_str_string, IH.
Qed.

Lemma get_columns_loop_typed items : forall cfg X,
  mapM (fun kv : string * pyval => cols ← as_layerconfig kv.2; Some (kv.1, cols)) items
  = Some cfg ->
  get_columns_loop py_str X items.*2
  = Ok (foldl (fun columns (config : string * list string) =>
                 foldl (fun columns c => columns ∪ {[ quote_column c ]}) columns config.2)
              X cfg).
Proof.
  induction items as [|[k v] items IH]; intros cfg X Hm.
  { by injection Hm as <-. }
  apply mapM_Some in Hm. apply Forall2_cons_inv_l in Hm as (entry & cfg' & He & Hrest & ->).
  apply mapM_Some in Hrest. cbn [fst snd] in He.
  destruct (as_layerconfig v) as [cols|] eqn:Hv; [|done]. injection He as <-.
  destruct v as [| | | | |its]; try discriminate Hv. cbn [as_layerconfig] in Hv.
  destruct (dict_get its "columns") as [[| | | |cs|]|] eqn:Hc; try discriminate Hv.
  apply as_columns_strings in Hv as ->.
  cbn [fmap list_fmap snd get_columns_loop getitem]. rewrite Hc.
  cbn [mbind result_bind py_iter foldl]. rewrite add_columns_strings.
  by apply IH.
Qed.

(** On settings that are a dictionary of entries whose ['columns'] is a
    list of strings, the columns the builder collects from the settings
    are those of the configuration read as lists of names: the build never
    fails on such settings for their shape. *)
Theorem get_columns_of_well_shaped_settings settings cfg :
  as_indexconfig settings = Some cfg ->
  get_columns_raw py_str settings = Ok (get_columns cfg).
Proof.
  intros Hcfg. destruct settings as [| | | | |items]; try discriminate Hcfg.
  cbn [as_indexconfig] in Hcfg. unfold get_columns_raw.
  cbn [values mbind result_bind]. by apply get_columns_loop_typed.
Qed.

Lemma get_columns_loop_iterable good rest : forall X,
  Forall iterable_columns good ->
  exists Y, get_columns_loop py_str X (good ++ rest) = get_columns_loop py_str Y rest.
Proof.
  induction good as [|v good IH]; intros X Hgood; [by exists X|].
  apply Forall_cons in Hgood as [(cols & cs & Hc & Hi) Hgood].
  cbn [app get_columns_loop]. rewrite Hc. cbn [mbind result_bind]. rewrite Hi.
  cbn [mbind result_bind]. by apply IH.
Qed.

(** Validation does not look under ['columns'], the builder does: settings
    in which every entry has the key are accepted, yet when the value
    under the key of one entry is not iterable ([None], a number, a
    boolean), and the entries before it are, collecting the columns raises
    [TypeError], so the build started for the accepted settings fails. *)
Theorem accepted_settings_can_fail_the_build settings good k bad rest c :
  getitem settings "search" = Ok (VDict (good ++ (k, bad) :: rest)) ->
  forallb has_columns (good ++ (k, bad) :: rest).*2 = true ->
  Forall iterable_columns good.*2 ->
  getitem bad "columns" = Ok c -> py_iter c = Raise TypeError ->
  valid_search_settings settings = Ok (true, VDict (good ++ (k, bad) :: rest))
  /\ get_columns_raw py_str (VDict (good ++ (k, bad) :: rest)) = Raise TypeError.
Proof.
  intros Hs Hall Hgood Hc Hi. split.
  - unfold valid_search_settings. rewrite Hs. cbn [mbind result_bind values].
    rewrite <- (app_nil_r (_.*2)), read_columns_good by done. done.
  - unfold get_columns_raw. cbn [values mbind result_bind].
    rewrite fmap_app, fmap_cons. cbn [snd].
    destruct (get_columns_loop_iterable good.*2 (bad :: rest.*2) ∅ Hgood) as [Y ->].
    cbn [get_columns_loop]. rewrite Hc. cbn [mbind result_bind]. by rewrite Hi.
Qed.


End RawSettings.

Lemma get_columns_of_well_shaped_settings_witness :
  get_columns_raw demo_str
    (VDict [("mains", VDict [("columns", VList [VStr "name"])]);
            ("hydrants", VDict [("columns", VList [VStr "name"])])])
  = Ok (get_columns demo_config).
Proof.
  apply (get_columns_of_well_shaped_settings demo_str); reflexivity.
Defined.

Lemma accepted_settings_can_fail_the_build_witness :
  valid_search_settings
    (VDict [("search", VDict [("mains", VDict [("columns", VList [VStr "name"])]);
                              ("hydrants", VDict [("columns", VNone)])])])
  = Ok (true, VDict [("mains", VDict [("columns", VList [VStr "name"])]);
                     ("hydrants", VDict [("columns", VNone)])])
  /\ get_columns_raw demo_str
       (VDict [("mains", VDict [("columns", VList [VStr "name"])]);
               ("hydrants", VDict [("columns", VNone)])])
     = Raise TypeError.
Proof.
  apply (accepted_settings_can_fail_the_build demo_str
           (VDict [("search", VDict [("mains", VDict [("columns", VList [VStr "name"])]);
                                     ("hydrants", VDict [("columns", VNone)])])])
           [("mains", VDict [("columns", VList [VStr "name"])])]
           "hydrants" (VDict [("columns", VNone)]) [] VNone);
    [reflexivity|reflexivity| |reflexivity|reflexivity].
  repeat constructor. exists (VList [VStr "name"]), [VStr "name"]. by split.
Defined.


Lemma build_commits_only_after_all_rows_witness :
  BCommit ∈ (build_index_events demo_build_engine demo_source demo_config "index.db").1
  /\ (build_index_events demo_build_engine demo_source
        [("hydrants", ["name"; "Name"])] "index.db").2 <> None
  /\ forall r,
       insert_search r
       ∉ (build_index_events demo_build_engine demo_source
            [("hydrants", ["name"; "Name"])] "index.db").1.
Proof.
  destruct (build_commits_only_after_all_rows demo_source demo_build_engine
              demo_config "index.db") as (H1 & _).
  destruct (build_commits_only_after_all_rows demo_source demo_build_engine
              [("hydrants", ["name"; "Name"])] "index.db") as (_ & _ & _ & _ & _ & H6).
  destruct (H6 OperationalError) as [H7 H8]; [vm_compute; reflexivity|].
  split; [apply H1; vm_compute; reflexivity|]. split; [exact H7|].
  intros r. exact (proj2 (H8 r)).
Defined.

Lemma search_shows_at_most_100_rows_witness :
  (length (shown_rows (search (demo_engine demo_database) "hydrant"
                         (demo_panel false)).2) <= 100)%nat.
Proof.
  apply (search_shows_at_most_100_rows (demo_engine demo_database) "hydrant"
           (demo_panel false)); vm_compute; reflexivity.
Defined.
